(** * mozci: resolving the scheduling status of CI jobs

    A shallow embedding of [mozci/query_jobs.py] (the two query backends and
    the status aggregator) and of [mozci/sources/buildjson.py] (the lookup of
    a job in the date-partitioned buildjson archive), followed by the
    properties established about them.

    Python dictionaries that are used as maps become [gmap], Python sets
    become [gset]; the two module-level caches ([BUILDS_DAY_INDEX],
    [JOBS_CACHE]) live in an explicit [state] that a small state-and-exception
    monad threads through the calls, so that a raised exception keeps every
    mutation made before it, as in Python. *)

From Stdlib Require Import ZArith String List Lia.
From stdpp Require Import gmap strings list fin_maps sorting.

Open Scope string_scope.
Open Scope Z_scope.

(** ** Status vocabulary ([query_jobs.py], lines 16-17)

    [PENDING, RUNNING, COALESCED, UNKNOWN = range(-4, 0)] and
    [SUCCESS, WARNING, FAILURE, SKIPPED, EXCEPTION, RETRY, CANCELLED = range(7)]. *)

Definition PENDING : Z := -4.
Definition RUNNING : Z := -3.
Definition COALESCED : Z := -2.
Definition UNKNOWN : Z := -1.
Definition SUCCESS : Z := 0.
Definition WARNING : Z := 1.
Definition FAILURE : Z := 2.
Definition SKIPPED : Z := 3.
Definition EXCEPTION : Z := 4.
Definition RETRY : Z := 5.
Definition CANCELLED : Z := 6.

(** ** Data model *)

(** Modelled from the spec: [utc_day] of [mozci.utils.tzone], which is not
    part of the sources at hand.  It gives "the UTC calendar day" of an epoch
    timestamp; the day is represented by its number since the epoch (a day has
    [86400] seconds), of which the [%Y-%m-%d] text used by the source is a
    one-to-one rendering.  [utc_day()] without argument is the day of the
    current time. *)
Definition utc_day (timestamp : Z) : Z := timestamp / 86400.

(** The buildjson files: [BUILDS_4HR_FILE = "builds-4hr.js"] and
    [BUILDS_DAY_FILE % date], that is ["builds-%s.js"] filled with a day. *)
Inductive file : Type :=
  | BUILDS_4HR_FILE
  | BUILDS_DAY_FILE (date : Z).

#[global] Instance file_eq_dec : EqDecision file.
Proof. solve_decision. Defined.

(** A job of a buildjson file, reduced to the fields the code reads:
    [job["properties"]] with its optional ["request_ids"] and its
    ["revision"], and the root [job["request_ids"]]. *)
Record properties : Type := {
  prop_request_ids : option (list Z);
  prop_revision : string
}.

Record build : Type := {
  build_properties : properties;
  build_request_ids : list Z
}.

(** A request nested in a self-serve (buildapi) job. *)
Record request : Type := {
  req_request_id : Z;
  req_complete_at : Z;
  req_revision : string
}.

(** A self-serve (buildapi) job.  A key that may be missing is an [option];
    ["status"] may be missing, present and [None], or present with a code.
    The code reads ["endtime"] through [job.get], which does not tell a
    missing key from [None]. *)
Record job : Type := {
  job_buildername : string;
  job_status : option (option Z);
  job_endtime : option Z;
  job_requests : option (list request);
  job_request_id : option Z
}.

(** A Treeherder job, reduced to the three fields [get_job_status] reads. *)
Record th_job : Type := {
  job_coalesced_to_guid : option string;
  th_result : string;
  th_state : string
}.

(** ** Exceptions and outcomes *)

(** The exception classes that occur.  [Exception] is the plain built-in
    class raised by [query_job_data], with the two values formatted into its
    message.  [BuildapiError], [TreeherderError] and [BuildjsonError] come
    from [mozci.errors]; they are classes of their own, so an instance of
    the plain [Exception] is an instance of none of them. *)
Inductive exn : Type :=
  | Exception (filename : file) (request_id : Z)
  | UnboundLocalError (name : string)
  | KeyError (key : string)
  | IndexError
  | AssertionError
  | IOError (msg : string)
  | BuildapiError (msg : string)
  | TreeherderError (msg : string)
  | BuildjsonError (msg : string).

#[global] Instance exn_eq_dec : EqDecision exn.
Proof. solve_decision. Defined.

(** What [except BuildjsonError] catches. *)
Definition is_BuildjsonError (e : exn) : bool :=
  match e with
  | BuildjsonError _ => true
  | _ => false
  end.

Inductive outcome (A : Type) : Type :=
  | Return (a : A)
  | Raise (e : exn).
Arguments Return {A} a.
Arguments Raise {A} e.

Definition is_Return {A : Type} (r : outcome A) : bool :=
  match r with
  | Return _ => true
  | Raise _ => false
  end.

(** ** The world outside and the module-level state *)

(** What a call can observe of the outside: the clock and the two remote
    services.  [archive f] is what downloading [f] and reading its ["builds"]
    entry yields at that moment ([fetch_file] followed by [json.load]);
    [query_jobs_schedule] is the function of [mozci.sources.buildapi]. *)
Record env : Type := {
  now : Z;
  archive : file -> outcome (list build);
  query_jobs_schedule : string -> string -> outcome (list job)
}.

(** The two module-level dictionaries, together with two histories (latest
    entry first): the calls of [_fetch_file], each with whether it returned
    the builds, and the messages passed to [LOG.info]. *)
Record state : Type := {
  BUILDS_DAY_INDEX : gmap Z (list build);
  JOBS_CACHE : gmap (string * string) (list job);
  fetched : list (file * bool);
  LOG_info : list string
}.

Definition initial_state : state :=
  {| BUILDS_DAY_INDEX := ∅; JOBS_CACHE := ∅; fetched := []; LOG_info := [] |}.

(** ** State and exception monad *)

Definition M (A : Type) : Type := state -> outcome A * state.

Definition ret {A : Type} (a : A) : M A := fun s => (Return a, s).

Definition raise {A : Type} (e : exn) : M A := fun s => (Raise e, s).

Definition bind {A B : Type} (c : M A) (k : A -> M B) : M B :=
  fun s =>
    match c s with
    | (Return a, s') => k a s'
    | (Raise e, s') => (Raise e, s')
    end.

Notation "'let*' x := c1 'in' c2" := (bind c1 (fun x => c2))
  (at level 10, x name, c1 at level 100, c2 at level 200).

Definition lift {A : Type} (r : outcome A) : M A := fun s => (r, s).

Definition gets {A : Type} (f : state -> A) : M A := fun s => (Return (f s), s).

Definition modify (f : state -> state) : M unit := fun s => (Return tt, f s).

(** [try: c except BuildjsonError: handler]. *)
Definition try_except_BuildjsonError {A : Type} (c : M A) (handler : M A) : M A :=
  fun s =>
    match c s with
    | (Return a, s') => (Return a, s')
    | (Raise e, s') => if is_BuildjsonError e then handler s' else (Raise e, s')
    end.

Definition set_BUILDS_DAY_INDEX (index : gmap Z (list build)) (s : state) : state :=
  {| BUILDS_DAY_INDEX := index; JOBS_CACHE := JOBS_CACHE s;
     fetched := fetched s; LOG_info := LOG_info s |}.

Definition set_JOBS_CACHE (cache : gmap (string * string) (list job)) (s : state) : state :=
  {| BUILDS_DAY_INDEX := BUILDS_DAY_INDEX s; JOBS_CACHE := cache;
     fetched := fetched s; LOG_info := LOG_info s |}.

Definition record_fetch (f : file) (ok : bool) (s : state) : state :=
  {| BUILDS_DAY_INDEX := BUILDS_DAY_INDEX s; JOBS_CACHE := JOBS_CACHE s;
     fetched := (f, ok) :: fetched s; LOG_info := LOG_info s |}.

Definition LOG_info_add (msg : string) : M unit :=
  modify (fun s =>
    {| BUILDS_DAY_INDEX := BUILDS_DAY_INDEX s; JOBS_CACHE := JOBS_CACHE s;
       fetched := fetched s; LOG_info := msg :: LOG_info s |}).

(** ** [mozci/sources/buildjson.py] *)

Module Buildjson.
Section WithEnv.
Variable E : env.

(** [_fetch_file(filename)]: download the file and load its ["builds"];
    every call is recorded in [fetched]. *)
Definition _fetch_file (filename : file) : M (list build) :=
  fun s =>
    let r := archive E filename in
    (r, record_fetch filename (is_Return r) s).

(** [_find_job(request_id, jobs, loaded_from)]: the first job that lists
    [request_id] in [list(set(prop_req_ids + root_req_ids))]. *)
Fixpoint _find_job (request_id : Z) (jobs : list build) (loaded_from : file)
  : option build :=
  match jobs with
  | [] => None
  | job :: jobs' =>
      let prop_req_ids := default [] (prop_request_ids (build_properties job)) in
      let root_req_ids := build_request_ids job in
      if bool_decide
           (request_id ∈ elements (list_to_set (prop_req_ids ++ root_req_ids) : gset Z))
      then Some job
      else _find_job request_id jobs' loaded_from
  end.

(** [(utc_dt() - then).total_seconds()]; the source divides it by [60 * 60]
    and compares the quotient with [4]. *)
Definition seconds_ago (complete_at : Z) : Z := now E - complete_at.

(** [query_job_data(complete_at, request_id)].  The local variable
    [filename] is assigned in the [else] branch only; it is an [option] here,
    and reading it unassigned, as the final [raise] does for its message,
    raises [UnboundLocalError]. *)
Definition query_job_data (complete_at request_id : Z) : M build :=
  let date := utc_day complete_at in
  let* found :=
    (if seconds_ago complete_at <? 4 * (60 * 60) then
       let* jobs := _fetch_file BUILDS_4HR_FILE in
       ret (_find_job request_id jobs BUILDS_4HR_FILE, None)
     else
       let filename := BUILDS_DAY_FILE date in
       if utc_day (now E) =? date then
         let* jobs := _fetch_file filename in
         ret (_find_job request_id jobs filename, Some filename)
       else
         let* index := gets BUILDS_DAY_INDEX in
         let* _ :=
         (match index !! date with
          | Some _ => ret tt
          | None =>
              let* jobs := _fetch_file filename in
              modify (fun s => set_BUILDS_DAY_INDEX (<[date := jobs]> (BUILDS_DAY_INDEX s)) s)
          end) in
         let* index := gets BUILDS_DAY_INDEX in
         match index !! date with
         | Some jobs => ret (_find_job request_id jobs filename, Some filename)
         | None => raise (KeyError "date")
         end) in
  match found with
  | (Some job, _) => ret job
  | (None, Some filename) => raise (Exception filename request_id)
  | (None, None) => raise (UnboundLocalError "filename")
  end.

End WithEnv.
End Buildjson.

(** ** [mozci/query_jobs.py], class [BuildApi] *)

Module BuildApi.
Section WithEnv.
Variable E : env.

(** [_get_all_jobs(repo_name, revision)]. *)
Definition _get_all_jobs (repo_name revision : string) : M (list job) :=
  let* cache := gets JOBS_CACHE in
  let* _ :=
  (match cache !! (repo_name, revision) with
   | Some _ => ret tt
   | None =>
       let* jobs := lift (query_jobs_schedule E repo_name revision) in
       modify (fun s => set_JOBS_CACHE (<[(repo_name, revision) := jobs]> (JOBS_CACHE s)) s)
   end) in
  let* cache := gets JOBS_CACHE in
  match cache !! (repo_name, revision) with
  | Some jobs => ret jobs
  | None => raise (KeyError "(repo_name, revision)")
  end.

(** [get_buildapi_request_id(repo_name, job)]. *)
Definition get_buildapi_request_id (repo_name : string) (job : job) : outcome Z :=
  match job_requests job with
  | Some requests =>
      match requests with
      | req :: _ => Return (req_request_id req)
      | [] => Raise IndexError
      end
  | None =>
      match job_request_id job with
      | Some request_id => Return request_id
      | None => Raise (KeyError "request_id")
      end
  end.

(** [get_matching_jobs(repo_name, revision, buildername)]. *)
Definition get_matching_jobs (repo_name revision buildername : string) : M (list job) :=
  let* all_jobs := _get_all_jobs repo_name revision in
  ret (List.filter (fun j => String.eqb (job_buildername j) buildername) all_jobs).

(** A buildjson job is a dictionary with a ["properties"] key, hence not
    empty: [not status_data] is false for it. *)
Definition truthy (status_data : build) : bool := true.

(** [_is_coalesced(job)]. *)
Definition _is_coalesced (job : job) : M Z :=
  match job_status job with
  | None => raise (KeyError "status")
  | Some status =>
      if bool_decide (status = Some SUCCESS) then
        match job_requests job with
        | None => raise (KeyError "requests")
        | Some [] => raise IndexError
        | Some (req :: _) =>
            let* status_data :=
              Buildjson.query_job_data E (req_complete_at req) (req_request_id req) in
            if negb (truthy status_data) then
              let* _ := LOG_info_add
                        "We have not found the job. We assume the job to be running." in
              ret RUNNING
            else if negb (String.eqb
                            (substring 0 12 (prop_revision (build_properties status_data)))
                            (substring 0 12 (req_revision req)))
            then ret COALESCED
            else ret SUCCESS
        end
      else raise AssertionError
  end.

(** [get_job_status(job)]. *)
Definition get_job_status (job : job) : M Z :=
  match job_status job with
  | None => ret PENDING
  | Some None =>
      match job_endtime job with
      | None => ret RUNNING
      | Some _ => ret UNKNOWN
      end
  | Some (Some status) =>
      if bool_decide (status ∈ [WARNING; FAILURE; EXCEPTION; RETRY; CANCELLED]) then
        ret status
      else if status =? SUCCESS then
        _is_coalesced job
      else
        raise (BuildapiError "Unexpected status")
  end.

(** The three collections [find_all_jobs_by_status] builds in its loop. *)
Record tally : Type := {
  request_id_by_buildername : gmap string Z;
  right_status_buildernames : gset string;
  wrong_status_buildernames : gset string
}.

Definition empty_tally : tally :=
  {| request_id_by_buildername := ∅;
     right_status_buildernames := ∅;
     wrong_status_buildernames := ∅ |}.

Definition quote : string := String (Ascii.ascii_of_nat 34) EmptyString.

(** The body of the [for job in all_jobs] loop.  Both calls that can raise
    come before the first assignment of a branch, so an exception leaves the
    three collections as they were. *)
Definition find_all_jobs_by_status_step
    (repo_name : string) (status : Z) (t : tally) (job : job) : M tally :=
  let buildername := job_buildername job in
  try_except_BuildjsonError
    (let* s := get_job_status job in
     if s =? status then
       let* request_id := lift (get_buildapi_request_id repo_name job) in
       ret {| request_id_by_buildername :=
                <[buildername := request_id]> (request_id_by_buildername t);
              right_status_buildernames := right_status_buildernames t ∪ {[buildername]};
              wrong_status_buildernames := wrong_status_buildernames t |}
     else
       ret {| request_id_by_buildername := request_id_by_buildername t;
              right_status_buildernames := right_status_buildernames t;
              wrong_status_buildernames := wrong_status_buildernames t ∪ {[buildername]} |})
    (let* _ := LOG_info_add ("We were not able to find status information for "
                           ++ quote ++ buildername ++ quote) in
     ret t).

Fixpoint find_all_jobs_by_status_loop
    (repo_name : string) (status : Z) (all_jobs : list job) (t : tally) : M tally :=
  match all_jobs with
  | [] => ret t
  | job :: all_jobs' =>
      let* t' := find_all_jobs_by_status_step repo_name status t job in
      find_all_jobs_by_status_loop repo_name status all_jobs' t'
  end.

(** [request_id_by_buildername[b] for b in buildernames]. *)
Fixpoint request_ids_of (ids : gmap string Z) (buildernames : list string)
  : outcome (list Z) :=
  match buildernames with
  | [] => Return []
  | b :: buildernames' =>
      match ids !! b with
      | None => Raise (KeyError b)
      | Some request_id =>
          match request_ids_of ids buildernames' with
          | Return l => Return (request_id :: l)
          | Raise e => Raise e
          end
      end
  end.

(** Python's [sorted] on integers. *)
Definition sorted (l : list Z) : list Z := merge_sort Z.le l.

(** [find_all_jobs_by_status(repo_name, revision, status)]. *)
Definition find_all_jobs_by_status (repo_name revision : string) (status : Z)
  : M (list Z) :=
  let* all_jobs := _get_all_jobs repo_name revision in
  let* t := find_all_jobs_by_status_loop repo_name status all_jobs empty_tally in
  let buildernames := right_status_buildernames t ∖ wrong_status_buildernames t in
  let* l := lift (request_ids_of (request_id_by_buildername t) (elements buildernames)) in
  ret (sorted l).

End WithEnv.
End BuildApi.

(** ** [mozci/query_jobs.py], class [TreeherderApi] *)

Module TreeherderApi.

(** The dictionary literal [status_dict], in the order it is written. *)
Definition status_dict : list (string * Z) :=
  [ ("success", SUCCESS);
    ("busted", FAILURE);
    ("testfailed", FAILURE);
    ("skipped", SKIPPED);
    ("exception", EXCEPTION);
    ("retry", RETRY);
    ("usercancel", CANCELLED) ].

(** [status_dict[key]]: the value of the entry with that key, if any. *)
Fixpoint getitem (d : list (string * Z)) (key : string) : option Z :=
  match d with
  | [] => None
  | (k, v) :: d' => if String.eqb k key then Some v else getitem d' key
  end.

(** [get_job_status(job)]. *)
Definition get_job_status (job : th_job) : outcome Z :=
  match job_coalesced_to_guid job with
  | Some _ => Return COALESCED
  | None =>
      if String.eqb (th_result job) "unknown" then
        if String.eqb (th_state job) "pending" then Return PENDING
        else if String.eqb (th_state job) "running" then Return RUNNING
        else Return UNKNOWN
      else if String.eqb (th_state job) "completed" then
        match getitem status_dict (th_result job) with
        | Some status => Return status
        | None => Raise (KeyError (th_result job))
        end
      else Raise (TreeherderError "Unexpected status")
  end.

End TreeherderApi.

(** The identifiers a buildjson job answers to: the two lists of
    [_find_job], one after the other. *)
Definition listed_request_ids (b : build) : list Z :=
  default [] (prop_request_ids (build_properties b)) ++ build_request_ids b.

(** ** Runs of several calls

    A caller that resolves one job after the other, each call in the world
    of its moment, and goes on whatever the previous call returned or
    raised: the state after the calls. *)
Fixpoint query_job_data_calls (calls : list (env * Z * Z)) (s : state) : state :=
  match calls with
  | [] => s
  | (E, complete_at, request_id) :: calls' =>
      query_job_data_calls calls'
        (snd (Buildjson.query_job_data E complete_at request_id s))
  end.

(** The number of calls of [_fetch_file] on [f] so far that returned the
    builds ([ok = true]) or raised ([ok = false]). *)
Definition fetch_count (f : file) (ok : bool) (s : state) : nat :=
  length (filter (fun ev => ev = (f, ok)) (fetched s)).

(** ** What a pass of the aggregator observes

    The outcome of [get_job_status] on each job of a pass, in order: every
    job is resolved in the state that the loop's iteration on the previous
    job left. *)
Fixpoint statuses_seen (E : env) (repo_name : string) (status : Z)
    (all_jobs : list job) (s : state) : list (job * outcome Z) :=
  match all_jobs with
  | [] => []
  | job :: all_jobs' =>
      (job, fst (BuildApi.get_job_status E job s))
      :: statuses_seen E repo_name status all_jobs'
           (snd (BuildApi.find_all_jobs_by_status_step E repo_name status
                   BuildApi.empty_tally job s))
  end.

(** How the three collections of the loop relate to the outcomes seen so
    far, for the target [status]. *)
Record tally_of (repo_name : string) (status : Z)
    (seen : list (job * outcome Z)) (t : BuildApi.tally) : Prop := {
  wrong_complete : forall job st,
    (job, Return st) ∈ seen -> st <> status ->
    job_buildername job ∈ BuildApi.wrong_status_buildernames t;
  wrong_sound : forall b,
    b ∈ BuildApi.wrong_status_buildernames t ->
    exists job st, (job, Return st) ∈ seen /\ st <> status /\ job_buildername job = b;
  right_complete : forall job,
    (job, Return status) ∈ seen ->
    job_buildername job ∈ BuildApi.right_status_buildernames t;
  right_has_id : forall b,
    b ∈ BuildApi.right_status_buildernames t ->
    is_Some (BuildApi.request_id_by_buildername t !! b);
  id_sound : forall b request_id,
    BuildApi.request_id_by_buildername t !! b = Some request_id ->
    exists job, (job, Return status) ∈ seen /\ job_buildername job = b
                /\ BuildApi.get_buildapi_request_id repo_name job = Return request_id
}.

(** ** [mozci/query_jobs.py], class [TreeherderApi]: the methods that go
    through the Treeherder client *)

(** A result set, a job and an artifact as the client returns them, reduced
    to what the methods read: [results[0]["id"]], [job["id"]],
    [job["ref_data_name"]] and the fields of [get_job_status], and
    [artifact["blob"]["request_id"]]. *)
Record resultset : Type := { resultset_id : Z }.

Record th_record : Type := {
  th_id : Z;
  ref_data_name : string;
  th_fields : th_job
}.

Record artifact : Type := { blob_request_id : Z }.

(** The three calls of [thclient.TreeherderClient] that are used; keyword
    arguments passed on with [**params] are a list of names and values. *)
Record treeherder_client : Type := {
  get_resultsets : string -> string -> list (string * string) -> outcome (list resultset);
  get_jobs : string -> Z -> Z -> list (string * string) -> outcome (list th_record);
  get_artifacts : string -> Z -> string -> outcome (list artifact)
}.

Module TreeherderQueries.
Section WithClient.
Variable treeherder_client : treeherder_client.

(** [_get_all_jobs(repo_name, revision, **params)]. *)
Definition _get_all_jobs (repo_name revision : string) (params : list (string * string))
  : outcome (list th_record) :=
  match get_resultsets treeherder_client repo_name revision params with
  | Raise e => Raise e
  | Return results =>
      match results with
      | [] => Return []
      | result :: _ =>
          get_jobs treeherder_client repo_name 2000 (resultset_id result) params
      end
  end.

(** [get_buildapi_request_id(repo_name, job)]. *)
Definition get_buildapi_request_id (repo_name : string) (job : th_record) : outcome Z :=
  match get_artifacts treeherder_client repo_name (th_id job) "buildapi" with
  | Raise e => Raise e
  | Return [] => Raise IndexError
  | Return (artifact :: _) => Return (blob_request_id artifact)
  end.

(** [get_hidden_jobs(repo_name, revision)]. *)
Definition get_hidden_jobs (repo_name revision : string) : outcome (list th_record) :=
  _get_all_jobs repo_name revision [("visibility", "excluded")].

(** [get_matching_jobs(repo_name, revision, buildername)]. *)
Definition get_matching_jobs (repo_name revision buildername : string)
  : outcome (list th_record) :=
  match _get_all_jobs repo_name revision [] with
  | Raise e => Raise e
  | Return all_jobs =>
      Return (List.filter (fun j => String.eqb (ref_data_name j) buildername) all_jobs)
  end.

End WithClient.
End TreeherderQueries.

(** ** [mozci/sources/buildbot_bridge.py]: the graph of builders *)

(** A graph of builders: a dictionary from builder names to [None] or to
    the graph of the builders that depend on them. *)
#[warnings="-register-all"]
Inductive graph : Type :=
  | Graph (dependents : gmap string (option graph)).

(** [buildbot_graph_builder(builders)]. *)
Definition buildbot_graph_builder (builders : list string) : gmap string (option graph) :=
  foldl (fun graph b => <[b := None]> graph) ∅ builders.

(** ** Agreement between the memory and the archive

    [BUILDS_DAY_INDEX] agrees with a world when every partition it holds is
    what that world's archive returns for the day. *)
Definition coherent (E : env) (s : state) : Prop :=
  forall (date : Z) (jobs : list build),
    BUILDS_DAY_INDEX s !! date = Some jobs ->
    archive E (BUILDS_DAY_FILE date) = Return jobs.

(** The file a call of [query_job_data] reads: the rolling window for a
    job completed less than four hours ago, else the file of its day. *)
Definition selected_file (E : env) (complete_at : Z) : file :=
  if Buildjson.seconds_ago E complete_at <? 4 * (60 * 60)
  then BUILDS_4HR_FILE
  else BUILDS_DAY_FILE (utc_day complete_at).

(** ** Sample data

    Concrete records, clocks and archives on which the properties below are
    evaluated.  The clock [1438000000] is 2015-07-27 12:26:40 UTC. *)

Definition req_71 (complete_at : Z) : request :=
  {| req_request_id := 71; req_complete_at := complete_at;
     req_revision := "abc123def456000" |}.

(** A job that self-serve reports as successful. *)
Definition successful_job (buildername : string) (complete_at : Z) : job :=
  {| job_buildername := buildername; job_status := Some (Some SUCCESS);
     job_endtime := Some complete_at;
     job_requests := Some [req_71 complete_at]; job_request_id := None |}.

(** A job with the given status code and request id, and no nested request. *)
Definition job_with_status (buildername : string) (status : Z) (request_id : Z) : job :=
  {| job_buildername := buildername; job_status := Some (Some status);
     job_endtime := Some 1437990000;
     job_requests := None; job_request_id := Some request_id |}.

Definition pending_job (buildername : string) (request_id : Z) : job :=
  {| job_buildername := buildername; job_status := None; job_endtime := None;
     job_requests := None; job_request_id := Some request_id |}.

Definition archived_build (request_ids : list Z) (revision : string) : build :=
  {| build_properties := {| prop_request_ids := Some request_ids;
                            prop_revision := revision |};
     build_request_ids := request_ids |}.

(** A world where every buildjson file holds the given builds and self-serve
    answers with the given jobs. *)
Definition sample_env (builds : list build) (jobs : list job) : env :=
  {| now := 1438000000;
     archive := fun _ => Return builds;
     query_jobs_schedule := fun _ _ => Return jobs |}.

(** A world whose archive cannot be read: every fetch raises [e]. *)
Definition unreadable_env (e : exn) (jobs : list job) : env :=
  {| now := 1438000000;
     archive := fun _ => Raise e;
     query_jobs_schedule := fun _ _ => Return jobs |}.

(** A Treeherder client that knows two result sets for every revision and
    three jobs for the first of them. *)
Definition sample_client : treeherder_client :=
  {| get_resultsets := fun _ _ _ => Return [ {| resultset_id := 5 |}; {| resultset_id := 6 |} ];
     get_jobs := fun _ _ result_set_id _ =>
       if result_set_id =? 5 then
         Return [ {| th_id := 1; ref_data_name := "Linux try build";
                     th_fields := {| job_coalesced_to_guid := None;
                                     th_result := "success"; th_state := "completed" |} |};
                  {| th_id := 2; ref_data_name := "Linux try test";
                     th_fields := {| job_coalesced_to_guid := None;
                                     th_result := "unknown"; th_state := "running" |} |};
                  {| th_id := 3; ref_data_name := "Linux try build";
                     th_fields := {| job_coalesced_to_guid := None;
                                     th_result := "retry"; th_state := "completed" |} |} ]
       else Raise (IOError "no such result set");
     get_artifacts := fun _ _ _ => Return [] |}.

(** A state whose memory holds the partition of one day. *)
Definition state_with_day (date : Z) (jobs : list build) : state :=
  set_BUILDS_DAY_INDEX (<[date := jobs]> ∅) initial_state.

(** * Properties *)

(** Unfolding of the monad's operations. *)
Ltac monad_unfold :=
  unfold bind, ret, raise, lift, gets, modify, LOG_info_add,
    try_except_BuildjsonError in *.

(** ** The results-set backend *)

Section TreeherderFacts.
Import TreeherderApi.

Lemma getitem_Some_elem_of (d : list (string * Z)) (key : string) (v : Z) :
  getitem d key = Some v -> (key, v) ∈ d.
Proof.
  induction d as [ | [k w] d IH]; cbn [getitem]; [discriminate | ].
  destruct (String.eqb_spec k key) as [-> | _].
  - intros [= ->]. apply list_elem_of_here.
  - intros H. apply list_elem_of_further. auto.
Qed.

Lemma getitem_None_not_elem_of (d : list (string * Z)) (key : string) :
  getitem d key = None -> forall v, (key, v) ∉ d.
Proof.
  induction d as [ | [k w] d IH]; cbn [getitem]; intros H v Hin.
  - by apply elem_of_nil in Hin.
  - destruct (String.eqb_spec k key) as [-> | Hne]; [discriminate | ].
    apply elem_of_cons in Hin as [[= ? ?] | Hin]; [congruence | ].
    by apply (IH H v).
Qed.

Lemma elem_of_getitem (d : list (string * Z)) (key : string) (v : Z) :
  NoDup (d.*1) -> (key, v) ∈ d -> getitem d key = Some v.
Proof.
  induction d as [ | [k w] d IH]; cbn [getitem fmap list_fmap fst];
    intros Hnd Hin.
  - by apply elem_of_nil in Hin.
  - apply NoDup_cons in Hnd as [Hk Hnd].
    apply elem_of_cons in Hin as [[= -> ->] | Hin].
    + by rewrite String.eqb_refl.
    + destruct (String.eqb_spec k key) as [-> | _]; [ | auto].
      exfalso. apply Hk. apply list_elem_of_fmap. by exists (key, v).
Qed.

Lemma status_dict_keys_NoDup : NoDup (status_dict.*1).
Proof. apply (bool_decide_unpack _). vm_compute. exact I. Qed.

End TreeherderFacts.

(** A completed job without coalescing marker whose result is neither
    ["unknown"] nor a key of the table: the lookup [status_dict[...]] raises
    [KeyError]. *)
Lemma treeherder_unlisted_result (job : th_job) :
  job_coalesced_to_guid job = None ->
  th_result job <> "unknown" ->
  th_state job = "completed" ->
  (forall status : Z, (th_result job, status) ∉ TreeherderApi.status_dict) ->
  TreeherderApi.get_job_status job = Raise (KeyError (th_result job)).
Proof.
  intros Hguid Hres Hstate Hnot.
  unfold TreeherderApi.get_job_status. rewrite Hguid, Hstate.
  destruct (String.eqb_spec (th_result job) "unknown") as [? | _]; [contradiction | ].
  cbn [String.eqb Ascii.eqb Bool.eqb].
  destruct (TreeherderApi.getitem TreeherderApi.status_dict (th_result job)) as [v | ] eqn:Hget;
    [ | reflexivity].
  exfalso. apply (Hnot v). by apply getitem_Some_elem_of.
Qed.

(** C3 does not hold of the code.  The table is the one the claim lists,
    and where the rules reach the lookup (no coalescing marker, a result
    other than ["unknown"], the state ["completed"]) a result in the table
    yields the table's value.  A result outside the table, however, does
    not make the call raise [TreeherderError], as the method does two lines
    further for every other unexpected record: the unguarded
    [status_dict[job["result"]]] raises [KeyError]. *)
Theorem treeherder_completed_status :
  TreeherderApi.status_dict =
    [ ("success", SUCCESS); ("busted", FAILURE); ("testfailed", FAILURE);
      ("skipped", SKIPPED); ("exception", EXCEPTION); ("retry", RETRY);
      ("usercancel", CANCELLED) ]
  /\ forall job : th_job,
       job_coalesced_to_guid job = None ->
       th_result job <> "unknown" ->
       th_state job = "completed" ->
       (forall status : Z,
          (th_result job, status) ∈ TreeherderApi.status_dict ->
          TreeherderApi.get_job_status job = Return status)
       /\ ((forall status : Z, (th_result job, status) ∉ TreeherderApi.status_dict) ->
           TreeherderApi.get_job_status job = Raise (KeyError (th_result job))
           /\ forall msg : string,
                TreeherderApi.get_job_status job <> Raise (TreeherderError msg)).
Proof.
  split; [reflexivity | ].
  intros job Hguid Hres Hstate. split.
  - intros status Hin.
    unfold TreeherderApi.get_job_status. rewrite Hguid, Hstate.
    destruct (String.eqb_spec (th_result job) "unknown") as [? | _]; [contradiction | ].
    cbn [String.eqb Ascii.eqb Bool.eqb].
    by rewrite (elem_of_getitem _ _ _ status_dict_keys_NoDup Hin).
  - intros Hnot.
    rewrite (treeherder_unlisted_result job Hguid Hres Hstate Hnot).
    split; [reflexivity | discriminate].
Qed.

Lemma treeherder_completed_status_witness :
  TreeherderApi.get_job_status
    {| job_coalesced_to_guid := None; th_result := "busted";
       th_state := "completed" |} = Return FAILURE
  /\ TreeherderApi.get_job_status
       {| job_coalesced_to_guid := None; th_result := "bogus";
          th_state := "completed" |} = Raise (KeyError "bogus").
Proof.
  split.
  - refine (proj1 (proj2 treeherder_completed_status
      {| job_coalesced_to_guid := None; th_result := "busted";
         th_state := "completed" |} _ _ _) FAILURE _).
    + reflexivity.
    + discriminate.
    + reflexivity.
    + apply (bool_decide_unpack _). vm_compute. exact I.
  - refine (proj1 (proj2 (proj2 treeherder_completed_status
      {| job_coalesced_to_guid := None; th_result := "bogus";
         th_state := "completed" |} _ _ _) _)).
    + reflexivity.
    + discriminate.
    + reflexivity.
    + apply (getitem_None_not_elem_of TreeherderApi.status_dict "bogus"). reflexivity.
Defined.

(** C4, as stated, fails: the table does not send every raw result string
    to a distinct value, ["busted"] and ["testfailed"] are two different
    strings and both map to [FAILURE]. *)
Lemma status_dict_not_injective :
  TreeherderApi.getitem TreeherderApi.status_dict "busted" = Some FAILURE
  /\ TreeherderApi.getitem TreeherderApi.status_dict "testfailed" = Some FAILURE
  /\ String.eqb "busted" "testfailed" = false.
Proof. repeat split. Qed.

(** C4, amended.  No raw result string of the table maps to two different
    values: no key is written twice, and two entries with the same key have
    the same value.  The values are distinct except for one pair: two
    different raw strings with the same value are ["busted"] and
    ["testfailed"], both mapped to [FAILURE]. *)
Theorem status_dict_functional :
  NoDup (TreeherderApi.status_dict.*1)
  /\ (forall (key : string) (v1 v2 : Z),
        (key, v1) ∈ TreeherderApi.status_dict ->
        (key, v2) ∈ TreeherderApi.status_dict ->
        v1 = v2)
  /\ (forall (key1 key2 : string) (v : Z),
        (key1, v) ∈ TreeherderApi.status_dict ->
        (key2, v) ∈ TreeherderApi.status_dict ->
        key1 <> key2 ->
        v = FAILURE
        /\ (key1 = "busted" /\ key2 = "testfailed"
            \/ key1 = "testfailed" /\ key2 = "busted")).
Proof.
  split; [exact status_dict_keys_NoDup | split].
  - intros key v1 v2 H1 H2.
    apply (elem_of_getitem _ _ _ status_dict_keys_NoDup) in H1, H2.
    congruence.
  - intros key1 key2 v H1 H2 Hne.
    unfold TreeherderApi.status_dict in H1, H2.
    rewrite !elem_of_cons, elem_of_nil in H1, H2.
    unfold SUCCESS, FAILURE, SKIPPED, EXCEPTION, RETRY, CANCELLED in *.
    destruct H1 as [H1|[H1|[H1|[H1|[H1|[H1|[H1|[]]]]]]]];
      destruct H2 as [H2|[H2|[H2|[H2|[H2|[H2|[H2|[]]]]]]]];
      simplify_eq; split; (reflexivity || tauto).
Qed.

Lemma status_dict_functional_witness :
  FAILURE = FAILURE
  /\ ("busted" = "busted" /\ "testfailed" = "testfailed"
      \/ "busted" = "testfailed" /\ "testfailed" = "busted").
Proof.
  refine (proj2 (proj2 status_dict_functional) "busted" "testfailed" FAILURE _ _ _).
  - apply (bool_decide_unpack _). vm_compute. exact I.
  - apply (bool_decide_unpack _). vm_compute. exact I.
  - discriminate.
Defined.

(** ** The polling backend: extraction of the request id and the first
    mapping rules *)

(** C9.  With a ["requests"] key, [get_buildapi_request_id] returns the
    [request_id] of the first nested request; without it, the top-level
    ["request_id"] of the job. *)
Theorem get_buildapi_request_id_spec (repo_name : string) (job : job) :
  (forall (req : request) (requests : list request),
     job_requests job = Some (req :: requests) ->
     BuildApi.get_buildapi_request_id repo_name job = Return (req_request_id req))
  /\ (forall request_id : Z,
        job_requests job = None ->
        job_request_id job = Some request_id ->
        BuildApi.get_buildapi_request_id repo_name job = Return request_id).
Proof.
  unfold BuildApi.get_buildapi_request_id. split.
  - intros req requests ->. reflexivity.
  - intros request_id -> ->. reflexivity.
Qed.

Lemma get_buildapi_request_id_spec_witness :
  BuildApi.get_buildapi_request_id "try"
    {| job_buildername := "Linux try build"; job_status := Some (Some 0);
       job_endtime := Some 1438000000;
       job_requests := Some [ {| req_request_id := 71; req_complete_at := 1438000000;
                                 req_revision := "abc123def456000" |};
                              {| req_request_id := 72; req_complete_at := 1438000000;
                                 req_revision := "abc123def456000" |} ];
       job_request_id := Some 99 |} = Return 71
  /\ BuildApi.get_buildapi_request_id "try"
       {| job_buildername := "Linux try build"; job_status := None;
          job_endtime := None; job_requests := None;
          job_request_id := Some 99 |} = Return 99.
Proof.
  split.
  - apply (proj1 (get_buildapi_request_id_spec _ _)
             {| req_request_id := 71; req_complete_at := 1438000000;
                req_revision := "abc123def456000" |}
             [ {| req_request_id := 72; req_complete_at := 1438000000;
                  req_revision := "abc123def456000" |} ]).
    reflexivity.
  - apply (proj2 (get_buildapi_request_id_spec _ _)); reflexivity.
Defined.

(** C8.  A job without ["status"] is [PENDING]; a job whose ["status"] is
    [None] is [RUNNING] when it has no end time and [UNKNOWN] when it has
    one.  Neither case reads or changes the state. *)
Theorem get_job_status_without_status (E : env) (job : job) (s : state) :
  (job_status job = None ->
   BuildApi.get_job_status E job s = (Return PENDING, s))
  /\ (job_status job = Some None ->
      job_endtime job = None ->
      BuildApi.get_job_status E job s = (Return RUNNING, s))
  /\ (forall endtime : Z,
        job_status job = Some None ->
        job_endtime job = Some endtime ->
        BuildApi.get_job_status E job s = (Return UNKNOWN, s)).
Proof.
  unfold BuildApi.get_job_status. repeat split.
  - intros ->. reflexivity.
  - intros -> ->. reflexivity.
  - intros endtime -> ->. reflexivity.
Qed.

Lemma get_job_status_without_status_witness :
  BuildApi.get_job_status (sample_env [] []) (pending_job "Linux try build" 99)
    initial_state = (Return PENDING, initial_state).
Proof.
  apply (proj1 (get_job_status_without_status _ _ _)). reflexivity.
Defined.

(** ** The polling backend: what [get_job_status] can return *)

Lemma _is_coalesced_values (E : env) (job : job) (s : state) (v : Z) :
  fst (BuildApi._is_coalesced E job s) = Return v ->
  v = COALESCED \/ v = SUCCESS.
Proof.
  unfold BuildApi._is_coalesced.
  destruct (job_status job) as [status | ]; [ | discriminate].
  case_bool_decide; [ | discriminate].
  destruct (job_requests job) as [[ | req requests] | ]; try discriminate.
  monad_unfold.
  destruct (Buildjson.query_job_data E _ _ s) as [[status_data | e] s'];
    [ | discriminate].
  cbn [BuildApi.truthy negb].
  destruct (negb _); intros [= <-]; auto.
Qed.

(** C10.  [SKIPPED] is neither in the tuple of statuses that
    [get_job_status] returns as they are nor equal to [SUCCESS]; the polling
    backend never returns [SKIPPED], and a job whose status is the [SKIPPED]
    code makes it raise [BuildapiError]. *)
Theorem get_job_status_never_SKIPPED (E : env) (job : job) (s : state) :
  (SKIPPED ∉ [WARNING; FAILURE; EXCEPTION; RETRY; CANCELLED])
  /\ SKIPPED <> SUCCESS
  /\ fst (BuildApi.get_job_status E job s) <> Return SKIPPED
  /\ (job_status job = Some (Some SKIPPED) ->
      BuildApi.get_job_status E job s
      = (Raise (BuildapiError "Unexpected status"), s)).
Proof.
  assert (Hnot : SKIPPED ∉ [WARNING; FAILURE; EXCEPTION; RETRY; CANCELLED]).
  { rewrite !not_elem_of_cons. repeat split; try discriminate. apply not_elem_of_nil. }
  split; [exact Hnot | split; [discriminate | split]].
  - unfold BuildApi.get_job_status.
    destruct (job_status job) as [[status | ] | ]; try discriminate.
    + case_bool_decide as Hin.
      * intros [= ->]. contradiction.
      * destruct (status =? SUCCESS); [ | discriminate].
        intros H. apply _is_coalesced_values in H as [H | H]; discriminate H.
    + destruct (job_endtime job); discriminate.
  - intros Hs. unfold BuildApi.get_job_status. rewrite Hs.
    rewrite bool_decide_eq_false_2 by exact Hnot. reflexivity.
Qed.

Lemma get_job_status_never_SKIPPED_witness :
  BuildApi.get_job_status (sample_env [] []) (job_with_status "Linux try build" SKIPPED 99)
    initial_state = (Raise (BuildapiError "Unexpected status"), initial_state).
Proof.
  apply (proj2 (proj2 (proj2 (get_job_status_never_SKIPPED _ _ _)))). reflexivity.
Defined.

(** ** The archival resolver *)

Section BuildjsonFacts.
Import Buildjson.

Lemma _find_job_None (request_id : Z) (jobs : list build) (loaded_from : file) :
  _find_job request_id jobs loaded_from = None <->
  forall b : build, b ∈ jobs -> request_id ∉ listed_request_ids b.
Proof.
  induction jobs as [ | job jobs IH]; cbn [_find_job].
  - split; [ | reflexivity]. intros _ b Hb. by apply elem_of_nil in Hb.
  - case_bool_decide as Hin; rewrite elem_of_elements, elem_of_list_to_set in Hin.
    + split; [discriminate | ].
      intros H. exfalso. apply (H job); [apply list_elem_of_here | exact Hin].
    + rewrite IH. split.
      * intros H b Hb. apply elem_of_cons in Hb as [-> | Hb]; auto.
      * intros H b Hb. apply H. by apply list_elem_of_further.
Qed.

Lemma _find_job_Some (request_id : Z) (jobs : list build) (loaded_from : file)
    (b : build) :
  _find_job request_id jobs loaded_from = Some b ->
  b ∈ jobs /\ request_id ∈ listed_request_ids b.
Proof.
  induction jobs as [ | job jobs IH]; cbn [_find_job]; [discriminate | ].
  case_bool_decide as Hin; rewrite elem_of_elements, elem_of_list_to_set in Hin.
  - intros [= <-]. split; [apply list_elem_of_here | exact Hin].
  - intros H. apply IH in H as [H1 H2]. split; [by apply list_elem_of_further | exact H2].
Qed.

(** The rolling window: the file is fetched and searched; a miss reads the
    unassigned [filename]. *)
Lemma query_job_data_rolling_window (E : env) (complete_at request_id : Z) (s : state) :
  seconds_ago E complete_at < 4 * (60 * 60) ->
  query_job_data E complete_at request_id s =
    (match archive E BUILDS_4HR_FILE with
     | Return jobs =>
         match _find_job request_id jobs BUILDS_4HR_FILE with
         | Some job => Return job
         | None => Raise (UnboundLocalError "filename")
         end
     | Raise e => Raise e
     end,
     record_fetch BUILDS_4HR_FILE (is_Return (archive E BUILDS_4HR_FILE)) s).
Proof.
  intros Hlt. unfold query_job_data.
  apply Z.ltb_lt in Hlt. rewrite Hlt.
  unfold _fetch_file. monad_unfold.
  destruct (archive E BUILDS_4HR_FILE) as [jobs | e]; [ | reflexivity].
  cbn [is_Return]. by destruct (_find_job request_id jobs BUILDS_4HR_FILE).
Qed.

(** The partition of the current day: fetched and searched, never stored. *)
Lemma query_job_data_current_day (E : env) (complete_at request_id : Z) (s : state) :
  4 * (60 * 60) <= seconds_ago E complete_at ->
  utc_day (now E) = utc_day complete_at ->
  let filename := BUILDS_DAY_FILE (utc_day complete_at) in
  query_job_data E complete_at request_id s =
    (match archive E filename with
     | Return jobs =>
         match _find_job request_id jobs filename with
         | Some job => Return job
         | None => Raise (Exception filename request_id)
         end
     | Raise e => Raise e
     end,
     record_fetch filename (is_Return (archive E filename)) s).
Proof.
  intros Hge Hday filename. unfold query_job_data.
  apply Z.ltb_ge in Hge. rewrite Hge.
  apply Z.eqb_eq in Hday. rewrite Hday.
  unfold _fetch_file. monad_unfold. fold filename.
  destruct (archive E filename) as [jobs | e]; [ | reflexivity].
  cbn [is_Return]. by destruct (_find_job request_id jobs filename).
Qed.

(** The partition of another day, already in [BUILDS_DAY_INDEX]: searched
    in memory, the state is left as it is. *)
Lemma query_job_data_other_day_hit (E : env) (complete_at request_id : Z) (s : state)
    (jobs : list build) :
  4 * (60 * 60) <= seconds_ago E complete_at ->
  utc_day (now E) <> utc_day complete_at ->
  BUILDS_DAY_INDEX s !! utc_day complete_at = Some jobs ->
  let filename := BUILDS_DAY_FILE (utc_day complete_at) in
  query_job_data E complete_at request_id s =
    (match _find_job request_id jobs filename with
     | Some job => Return job
     | None => Raise (Exception filename request_id)
     end, s).
Proof.
  intros Hge Hday Hidx filename. unfold query_job_data.
  apply Z.ltb_ge in Hge. rewrite Hge.
  apply Z.eqb_neq in Hday. rewrite Hday.
  monad_unfold. rewrite Hidx. cbn beta iota. rewrite Hidx. fold filename.
  by destruct (_find_job request_id jobs filename).
Qed.

(** The partition of another day, not yet in [BUILDS_DAY_INDEX]: fetched,
    and stored when the fetch returns. *)
Lemma query_job_data_other_day_miss (E : env) (complete_at request_id : Z) (s : state) :
  4 * (60 * 60) <= seconds_ago E complete_at ->
  utc_day (now E) <> utc_day complete_at ->
  BUILDS_DAY_INDEX s !! utc_day complete_at = None ->
  let filename := BUILDS_DAY_FILE (utc_day complete_at) in
  query_job_data E complete_at request_id s =
    match archive E filename with
    | Return jobs =>
        (match _find_job request_id jobs filename with
         | Some job => Return job
         | None => Raise (Exception filename request_id)
         end,
         set_BUILDS_DAY_INDEX (<[utc_day complete_at := jobs]> (BUILDS_DAY_INDEX s))
           (record_fetch filename true s))
    | Raise e => (Raise e, record_fetch filename false s)
    end.
Proof.
  intros Hge Hday Hidx filename. unfold query_job_data.
  apply Z.ltb_ge in Hge. rewrite Hge.
  apply Z.eqb_neq in Hday. rewrite Hday.
  unfold _fetch_file. monad_unfold. rewrite Hidx. fold filename.
  destruct (archive E filename) as [jobs | e]; [ | reflexivity].
  cbn [is_Return set_BUILDS_DAY_INDEX record_fetch BUILDS_DAY_INDEX].
  rewrite lookup_insert_eq.
  by destruct (_find_job request_id jobs filename).
Qed.

End BuildjsonFacts.

(** ** The polling backend: the coalescing check *)

Lemma get_job_status_SUCCESS (E : env) (job : job) (req : request)
    (requests : list request) (s : state) :
  job_status job = Some (Some SUCCESS) ->
  job_requests job = Some (req :: requests) ->
  BuildApi.get_job_status E job s =
    match Buildjson.query_job_data E (req_complete_at req) (req_request_id req) s with
    | (Return status_data, s') =>
        (Return (if String.eqb (substring 0 12 (prop_revision (build_properties status_data)))
                              (substring 0 12 (req_revision req))
                 then SUCCESS else COALESCED), s')
    | (Raise e, s') => (Raise e, s')
    end.
Proof.
  intros Hstatus Hreq.
  unfold BuildApi.get_job_status, BuildApi._is_coalesced.
  rewrite Hstatus, Hreq. cbn [bool_decide decide_rel Z.eqb SUCCESS].
  rewrite bool_decide_eq_false_2 by (rewrite !not_elem_of_cons; repeat split;
    try discriminate; apply not_elem_of_nil).
  rewrite bool_decide_eq_true_2 by reflexivity.
  monad_unfold.
  destruct (Buildjson.query_job_data E _ _ s) as [[status_data | e] s'];
    [ | reflexivity].
  cbn [BuildApi.truthy negb]. by destruct (String.eqb _ _).
Qed.

(** C1 does not hold of the code.  For a job reported as [SUCCESS] whose
    first request completed less than four hours ago and whose request id
    no job of the rolling-window file lists, [query_job_data] does not
    return: building the message of its final [raise] reads [filename],
    which that branch never assigned.  [get_job_status] propagates the
    [UnboundLocalError]; the branch of [_is_coalesced] that returns
    [RUNNING] is never reached. *)
Theorem get_job_status_rolling_window_miss (E : env) (job : job) (req : request)
    (requests : list request) (jobs : list build) (s : state) :
  job_status job = Some (Some SUCCESS) ->
  job_requests job = Some (req :: requests) ->
  Buildjson.seconds_ago E (req_complete_at req) < 4 * (60 * 60) ->
  archive E BUILDS_4HR_FILE = Return jobs ->
  (forall b : build, b ∈ jobs -> req_request_id req ∉ listed_request_ids b) ->
  BuildApi.get_job_status E job s =
    (Raise (UnboundLocalError "filename"), record_fetch BUILDS_4HR_FILE true s).
Proof.
  intros Hstatus Hreq Hrecent Harchive Habsent.
  rewrite (get_job_status_SUCCESS E job req requests s Hstatus Hreq).
  rewrite query_job_data_rolling_window by exact Hrecent.
  rewrite Harchive.
  apply (_find_job_None _ _ BUILDS_4HR_FILE) in Habsent. by rewrite Habsent.
Qed.

Lemma get_job_status_rolling_window_miss_witness :
  BuildApi.get_job_status
    (sample_env [archived_build [70] "abc123def456789"] [])
    (successful_job "Linux try build" 1437996400) initial_state =
    (Raise (UnboundLocalError "filename"),
     record_fetch BUILDS_4HR_FILE true initial_state).
Proof.
  apply (get_job_status_rolling_window_miss
           (sample_env [archived_build [70] "abc123def456789"] [])
           (successful_job "Linux try build" 1437996400)
           (req_71 1437996400) [] [archived_build [70] "abc123def456789"]).
  - reflexivity.
  - reflexivity.
  - reflexivity.
  - reflexivity.
  - apply (_find_job_None 71 _ BUILDS_4HR_FILE). reflexivity.
Defined.

(** C6.  For a job reported as [SUCCESS] whose archival record is found,
    the status is [SUCCESS] when the first 12 characters of the record's
    revision are those of the first request's revision, and [COALESCED]
    when they differ. *)
Theorem get_job_status_revision_prefix (E : env) (job : job) (req : request)
    (requests : list request) (status_data : build) (s s' : state) :
  job_status job = Some (Some SUCCESS) ->
  job_requests job = Some (req :: requests) ->
  Buildjson.query_job_data E (req_complete_at req) (req_request_id req) s
    = (Return status_data, s') ->
  (substring 0 12 (prop_revision (build_properties status_data))
     = substring 0 12 (req_revision req) ->
   BuildApi.get_job_status E job s = (Return SUCCESS, s'))
  /\ (substring 0 12 (prop_revision (build_properties status_data))
        <> substring 0 12 (req_revision req) ->
      BuildApi.get_job_status E job s = (Return COALESCED, s')).
Proof.
  intros Hstatus Hreq Hfound.
  rewrite (get_job_status_SUCCESS E job req requests s Hstatus Hreq), Hfound.
  split; intros Hprefix.
  - apply String.eqb_eq in Hprefix. by rewrite Hprefix.
  - apply String.eqb_neq in Hprefix. by rewrite Hprefix.
Qed.

Lemma get_job_status_revision_prefix_witness :
  BuildApi.get_job_status
    (sample_env [archived_build [71] "abc123def456789"] [])
    (successful_job "Linux try build" 1437996400) initial_state =
    (Return SUCCESS, record_fetch BUILDS_4HR_FILE true initial_state)
  /\ BuildApi.get_job_status
       (sample_env [archived_build [71] "zzz999def456789"] [])
       (successful_job "Linux try build" 1437996400) initial_state =
       (Return COALESCED, record_fetch BUILDS_4HR_FILE true initial_state).
Proof.
  split.
  - apply (proj1 (get_job_status_revision_prefix
             (sample_env [archived_build [71] "abc123def456789"] [])
             (successful_job "Linux try build" 1437996400)
             (req_71 1437996400) [] (archived_build [71] "abc123def456789")
             initial_state (record_fetch BUILDS_4HR_FILE true initial_state)
             eq_refl eq_refl eq_refl)).
    reflexivity.
  - apply (proj2 (get_job_status_revision_prefix
             (sample_env [archived_build [71] "zzz999def456789"] [])
             (successful_job "Linux try build" 1437996400)
             (req_71 1437996400) [] (archived_build [71] "zzz999def456789")
             initial_state (record_fetch BUILDS_4HR_FILE true initial_state)
             eq_refl eq_refl eq_refl)).
    discriminate.
Defined.

(** ** The cache of day partitions *)

(** The state a call of [query_job_data] leaves. *)
Lemma query_job_data_state (E : env) (complete_at request_id : Z) (s : state) :
  snd (Buildjson.query_job_data E complete_at request_id s) =
    let date := utc_day complete_at in
    if Buildjson.seconds_ago E complete_at <? 4 * (60 * 60) then
      record_fetch BUILDS_4HR_FILE (is_Return (archive E BUILDS_4HR_FILE)) s
    else if utc_day (now E) =? date then
      record_fetch (BUILDS_DAY_FILE date) (is_Return (archive E (BUILDS_DAY_FILE date))) s
    else
      match BUILDS_DAY_INDEX s !! date with
      | Some _ => s
      | None =>
          match archive E (BUILDS_DAY_FILE date) with
          | Return jobs =>
              set_BUILDS_DAY_INDEX (<[date := jobs]> (BUILDS_DAY_INDEX s))
                (record_fetch (BUILDS_DAY_FILE date) true s)
          | Raise _ => record_fetch (BUILDS_DAY_FILE date) false s
          end
      end.
Proof.
  cbn zeta.
  destruct (Z.ltb_spec (Buildjson.seconds_ago E complete_at) (4 * (60 * 60))) as [Hlt | Hge].
  { by rewrite query_job_data_rolling_window. }
  destruct (Z.eqb_spec (utc_day (now E)) (utc_day complete_at)) as [Heq | Hne].
  { by rewrite query_job_data_current_day. }
  destruct (BUILDS_DAY_INDEX s !! utc_day complete_at) as [jobs | ] eqn:Hidx.
  { by rewrite (query_job_data_other_day_hit E complete_at request_id s jobs). }
  rewrite query_job_data_other_day_miss by assumption.
  by destruct (archive E (BUILDS_DAY_FILE (utc_day complete_at))).
Qed.

(** An entry of [BUILDS_DAY_INDEX] outlives every call, with its value. *)
Lemma query_job_data_keeps_index (E : env) (complete_at request_id : Z) (s : state)
    (date : Z) (jobs : list build) :
  BUILDS_DAY_INDEX s !! date = Some jobs ->
  BUILDS_DAY_INDEX (snd (Buildjson.query_job_data E complete_at request_id s)) !! date
    = Some jobs.
Proof.
  intros Hidx. rewrite query_job_data_state. cbn zeta.
  repeat case_match; cbn [record_fetch set_BUILDS_DAY_INDEX BUILDS_DAY_INDEX];
    try exact Hidx.
  destruct (decide (utc_day complete_at = date)) as [Heq | Hne];
    [rewrite Heq in *; congruence | ].
  by rewrite lookup_insert_ne.
Qed.

Lemma fetch_count_record_fetch (f g : file) (ok ok' : bool) (s : state) :
  fetch_count f ok (record_fetch g ok' s) =
    if decide ((g, ok') = (f, ok)) then S (fetch_count f ok s) else fetch_count f ok s.
Proof.
  unfold fetch_count, record_fetch. cbn [fetched].
  rewrite filter_cons. by destruct (decide _).
Qed.

Lemma fetch_count_set_BUILDS_DAY_INDEX (f : file) (ok : bool)
    (index : gmap Z (list build)) (s : state) :
  fetch_count f ok (set_BUILDS_DAY_INDEX index s) = fetch_count f ok s.
Proof. reflexivity. Qed.

(** One call at a moment when [date] is past: either the partition of
    [date] is in memory before and after the call and the call fetched
    nothing of it, or it was not in memory and the call made at most one
    fetch of it that returned, in which case it is in memory afterwards. *)
Lemma query_job_data_past_day_step (E : env) (complete_at request_id : Z) (s : state)
    (date : Z) :
  date < utc_day (now E) ->
  let s' := snd (Buildjson.query_job_data E complete_at request_id s) in
  let f := BUILDS_DAY_FILE date in
  (is_Some (BUILDS_DAY_INDEX s !! date) ->
     is_Some (BUILDS_DAY_INDEX s' !! date)
     /\ forall ok, fetch_count f ok s' = fetch_count f ok s)
  /\ (BUILDS_DAY_INDEX s !! date = None ->
        (BUILDS_DAY_INDEX s' !! date = None /\ fetch_count f true s' = fetch_count f true s)
        \/ (is_Some (BUILDS_DAY_INDEX s' !! date)
            /\ fetch_count f true s' = S (fetch_count f true s))).
Proof.
  intros Hpast s' f. subst s'. rewrite query_job_data_state. cbn zeta.
  destruct (_ <? _).
  { rewrite !fetch_count_record_fetch. cbn [record_fetch BUILDS_DAY_INDEX].
    split; [intros H; split; [exact H | intros ok] | intros H; left; split; [exact H | ]];
      rewrite ?fetch_count_record_fetch; by rewrite decide_False by discriminate. }
  destruct (Z.eqb_spec (utc_day (now E)) (utc_day complete_at)) as [Heq | Hne].
  { assert (Hf : BUILDS_DAY_FILE (utc_day complete_at) <> f).
    { unfold f. intros [= H]. lia. }
    cbn [record_fetch BUILDS_DAY_INDEX].
    split; [intros H; split; [exact H | intros ok] | intros H; left; split; [exact H | ]];
      rewrite fetch_count_record_fetch; rewrite decide_False; congruence. }
  destruct (decide (utc_day complete_at = date)) as [Hd | Hd].
  - rewrite Hd.
    destruct (BUILDS_DAY_INDEX s !! date) as [jobs | ] eqn:Hidx.
    + split; [ | discriminate]. intros _. rewrite Hidx. split; [by eexists | reflexivity].
    + split; [by intros [? [=]] | intros _].
      destruct (archive E (BUILDS_DAY_FILE date)) as [jobs | e].
      * right. cbn [set_BUILDS_DAY_INDEX BUILDS_DAY_INDEX].
        rewrite lookup_insert_eq. split; [by eexists | ].
        rewrite fetch_count_set_BUILDS_DAY_INDEX, fetch_count_record_fetch.
        by rewrite decide_True.
      * left. cbn [record_fetch BUILDS_DAY_INDEX]. split; [exact Hidx | ].
        rewrite fetch_count_record_fetch. by rewrite decide_False by discriminate.
  - assert (Hf : BUILDS_DAY_FILE (utc_day complete_at) <> f).
    { unfold f. congruence. }
    destruct (BUILDS_DAY_INDEX s !! utc_day complete_at) as [jobs' | ] eqn:Hidx'.
    { split; [intros H; split; [exact H | reflexivity] | intros H; left; by split]. }
    destruct (archive E (BUILDS_DAY_FILE (utc_day complete_at))) as [jobs | e];
      cbn [set_BUILDS_DAY_INDEX record_fetch BUILDS_DAY_INDEX];
      rewrite ?lookup_insert_ne by exact Hd;
      (split; [intros H; split; [exact H | intros ok] | intros H; left; split; [exact H | ]]);
      rewrite ?fetch_count_set_BUILDS_DAY_INDEX, fetch_count_record_fetch;
      rewrite decide_False; congruence.
Qed.

Lemma query_job_data_calls_keep_index (calls : list (env * Z * Z)) (s : state)
    (date : Z) (jobs : list build) :
  BUILDS_DAY_INDEX s !! date = Some jobs ->
  BUILDS_DAY_INDEX (query_job_data_calls calls s) !! date = Some jobs.
Proof.
  revert s. induction calls as [ | [[E complete_at] request_id] calls IH];
    intros s Hidx; cbn [query_job_data_calls]; [exact Hidx | ].
  apply IH. by apply query_job_data_keeps_index.
Qed.

Lemma query_job_data_calls_app (calls1 calls2 : list (env * Z * Z)) (s : state) :
  query_job_data_calls (calls1 ++ calls2) s
  = query_job_data_calls calls2 (query_job_data_calls calls1 s).
Proof.
  revert s. induction calls1 as [ | [[E complete_at] request_id] calls1 IH];
    intros s; cbn [query_job_data_calls app]; [reflexivity | apply IH].
Qed.

(** Calls made while [date] is past, whatever they ask for: a partition in
    memory stays there and is not fetched again, and in any case at most one
    more fetch of it returns. *)
Lemma query_job_data_calls_past_day (date : Z) (calls : list (env * Z * Z)) (s : state) :
  Forall (fun call => date < utc_day (now call.1.1)) calls ->
  let f := BUILDS_DAY_FILE date in
  (is_Some (BUILDS_DAY_INDEX s !! date) ->
     forall ok, fetch_count f ok (query_job_data_calls calls s) = fetch_count f ok s)
  /\ (fetch_count f true (query_job_data_calls calls s) <= S (fetch_count f true s))%nat.
Proof.
  intros Hpast f. revert s.
  induction Hpast as [ | [[E complete_at] request_id] calls Hcall Hcalls IH];
    intros s; cbn [query_job_data_calls].
  { split; [reflexivity | lia]. }
  cbn [fst] in Hcall.
  destruct (query_job_data_past_day_step E complete_at request_id s date Hcall)
    as [Hhit Hmiss].
  set (s' := snd (Buildjson.query_job_data E complete_at request_id s)) in *.
  destruct (IH s') as [IHhit IHle].
  assert (Hcached : is_Some (BUILDS_DAY_INDEX s !! date) ->
            forall ok, fetch_count f ok (query_job_data_calls calls s') = fetch_count f ok s).
  { intros Hsome ok. destruct (Hhit Hsome) as [Hsome' Hcount].
    rewrite (IHhit Hsome' ok). apply Hcount. }
  split; [exact Hcached | ].
  destruct (BUILDS_DAY_INDEX s !! date) as [jobs | ] eqn:Hidx.
  - rewrite Hcached by (by eexists). lia.
  - destruct (Hmiss eq_refl) as [[_ Hcount] | [Hsome' Hcount]].
    + fold f in Hcount. lia.
    + fold f in Hcount. rewrite (IHhit Hsome' true). lia.
Qed.

(** C5.  A call of the resolver for a timestamp at least four hours old.
    On the current day it fetches the day's file, once, searches what the
    fetch returned and leaves [BUILDS_DAY_INDEX] as it was, also when the
    day is in it.  On a past day it fetches nothing when the day is in
    memory, and otherwise stores what the fetch returns; from then on no
    call removes or changes the entry, and over the call and any calls
    that follow while the day is past, at most one fetch of the day's file
    returns, none once the entry is there. *)
Theorem day_partition_cache (E : env) (complete_at request_id : Z) (s : state) :
  4 * (60 * 60) <= Buildjson.seconds_ago E complete_at ->
  let date := utc_day complete_at in
  let f := BUILDS_DAY_FILE date in
  let s' := snd (Buildjson.query_job_data E complete_at request_id s) in
  (date = utc_day (now E) ->
     fetched s' = (f, is_Return (archive E f)) :: fetched s
     /\ BUILDS_DAY_INDEX s' = BUILDS_DAY_INDEX s
     /\ forall jobs, archive E f = Return jobs ->
          fst (Buildjson.query_job_data E complete_at request_id s) =
            match Buildjson._find_job request_id jobs f with
            | Some job => Return job
            | None => Raise (Exception f request_id)
            end)
  /\ (date < utc_day (now E) ->
        (is_Some (BUILDS_DAY_INDEX s !! date) -> s' = s)
        /\ (BUILDS_DAY_INDEX s !! date = None ->
            forall jobs, archive E f = Return jobs ->
              fetched s' = (f, true) :: fetched s
              /\ BUILDS_DAY_INDEX s' = <[date := jobs]> (BUILDS_DAY_INDEX s))
        /\ (forall calls jobs,
              BUILDS_DAY_INDEX s' !! date = Some jobs ->
              BUILDS_DAY_INDEX (query_job_data_calls calls s') !! date = Some jobs)
        /\ (forall calls,
              Forall (fun call => date < utc_day (now call.1.1)) calls ->
              (fetch_count f true (query_job_data_calls calls s')
                 <= S (fetch_count f true s))%nat
              /\ (is_Some (BUILDS_DAY_INDEX s' !! date) ->
                  forall ok, fetch_count f ok (query_job_data_calls calls s')
                             = fetch_count f ok s'))).
Proof.
  intros Hold date f s'. split.
  - intros Htoday. subst s'.
    rewrite query_job_data_current_day by (done || by symmetry).
    fold date f. cbn [fst snd record_fetch fetched BUILDS_DAY_INDEX].
    split; [reflexivity | split; [reflexivity | ]].
    by intros jobs ->.
  - intros Hpast.
    assert (Hne : utc_day (now E) <> utc_day complete_at) by (fold date; lia).
    split; [ | split; [ | split]].
    + intros [jobs Hidx]. subst s'.
      by rewrite (query_job_data_other_day_hit E complete_at request_id s jobs).
    + intros Hidx jobs Harchive. subst s'.
      rewrite query_job_data_other_day_miss by assumption.
      fold date f. by rewrite Harchive.
    + intros calls jobs. apply query_job_data_calls_keep_index.
    + intros calls Hcalls. split.
      * change s' with (query_job_data_calls [(E, complete_at, request_id)] s).
        rewrite <- query_job_data_calls_app.
        apply query_job_data_calls_past_day.
        apply Forall_app; split; [ | exact Hcalls]. by apply Forall_singleton.
      * intros Hsome ok. by apply query_job_data_calls_past_day.
Qed.

Lemma day_partition_cache_witness :
  Nat.le
    (fetch_count (BUILDS_DAY_FILE 16642) true
       (query_job_data_calls
          [ (sample_env [archived_build [71] "abc123def456789"] [], 1437900000, 71);
            (sample_env [archived_build [71] "abc123def456789"] [], 1437900500, 72) ]
          (snd (Buildjson.query_job_data
                  (sample_env [archived_build [71] "abc123def456789"] [])
                  1437900000 71 initial_state))))
    1.
Proof.
  refine (proj1 (proj2 (proj2 (proj2 (proj2
    (day_partition_cache (sample_env [archived_build [71] "abc123def456789"] [])
       1437900000 71 initial_state _) _)))
    [ (sample_env [archived_build [71] "abc123def456789"] [], 1437900000, 71);
      (sample_env [archived_build [71] "abc123def456789"] [], 1437900500, 72) ] _)).
  - unfold Buildjson.seconds_ago. simpl. lia.
  - reflexivity.
  - repeat constructor.
Defined.

(** ** The status aggregator *)

Lemma get_buildapi_request_id_not_BuildjsonError (repo_name : string) (job : job)
    (e : exn) :
  BuildApi.get_buildapi_request_id repo_name job = Raise e ->
  is_BuildjsonError e = false.
Proof.
  unfold BuildApi.get_buildapi_request_id.
  destruct (job_requests job) as [[ | req requests] | ];
    [ | | destruct (job_request_id job)]; by intros [= <-].
Qed.

(** One iteration of the loop, by the outcome of [get_job_status]. *)
Lemma find_all_jobs_by_status_step_eq (E : env) (repo_name : string) (status : Z)
    (t : BuildApi.tally) (job : job) (s : state) :
  BuildApi.find_all_jobs_by_status_step E repo_name status t job s =
    match BuildApi.get_job_status E job s with
    | (Return st, s') =>
        if st =? status then
          match BuildApi.get_buildapi_request_id repo_name job with
          | Return request_id =>
              (Return {| BuildApi.request_id_by_buildername :=
                           <[job_buildername job := request_id]>
                             (BuildApi.request_id_by_buildername t);
                         BuildApi.right_status_buildernames :=
                           BuildApi.right_status_buildernames t ∪ {[job_buildername job]};
                         BuildApi.wrong_status_buildernames :=
                           BuildApi.wrong_status_buildernames t |}, s')
          | Raise e => (Raise e, s')
          end
        else
          (Return {| BuildApi.request_id_by_buildername :=
                       BuildApi.request_id_by_buildername t;
                     BuildApi.right_status_buildernames :=
                       BuildApi.right_status_buildernames t;
                     BuildApi.wrong_status_buildernames :=
                       BuildApi.wrong_status_buildernames t ∪ {[job_buildername job]} |}, s')
    | (Raise e, s') =>
        if is_BuildjsonError e then
          (Return t,
           {| BUILDS_DAY_INDEX := BUILDS_DAY_INDEX s'; JOBS_CACHE := JOBS_CACHE s';
              fetched := fetched s';
              LOG_info := ("We were not able to find status information for "
                           ++ BuildApi.quote ++ job_buildername job ++ BuildApi.quote)
                          :: LOG_info s' |})
        else (Raise e, s')
    end.
Proof.
  unfold BuildApi.find_all_jobs_by_status_step. monad_unfold.
  destruct (BuildApi.get_job_status E job s) as [[st | e] s']; [ | reflexivity].
  destruct (st =? status); [ | reflexivity].
  destruct (BuildApi.get_buildapi_request_id repo_name job) as [request_id | e] eqn:Hid;
    [reflexivity | ].
  by rewrite (get_buildapi_request_id_not_BuildjsonError _ _ _ Hid).
Qed.

(** The state an iteration leaves does not depend on the collections. *)
Lemma find_all_jobs_by_status_step_state (E : env) (repo_name : string) (status : Z)
    (t t' : BuildApi.tally) (job : job) (s : state) :
  snd (BuildApi.find_all_jobs_by_status_step E repo_name status t job s)
  = snd (BuildApi.find_all_jobs_by_status_step E repo_name status t' job s).
Proof.
  rewrite !find_all_jobs_by_status_step_eq.
  destruct (BuildApi.get_job_status E job s) as [[st | e] s'].
  - destruct (st =? status); [ | reflexivity].
    by destruct (BuildApi.get_buildapi_request_id repo_name job).
  - by destruct (is_BuildjsonError e).
Qed.

(** An exception other than [BuildjsonError] ends the iteration, and with
    it the loop. *)
Lemma find_all_jobs_by_status_step_raises (E : env) (repo_name : string) (status : Z)
    (t : BuildApi.tally) (job : job) (s s' : state) (e : exn) :
  BuildApi.get_job_status E job s = (Raise e, s') ->
  is_BuildjsonError e = false ->
  BuildApi.find_all_jobs_by_status_step E repo_name status t job s = (Raise e, s').
Proof.
  intros Hst He. rewrite find_all_jobs_by_status_step_eq, Hst. by rewrite He.
Qed.

Lemma find_all_jobs_by_status_loop_app (E : env) (repo_name : string) (status : Z)
    (jobs1 jobs2 : list job) (t : BuildApi.tally) (s : state) :
  BuildApi.find_all_jobs_by_status_loop E repo_name status (jobs1 ++ jobs2) t s =
    match BuildApi.find_all_jobs_by_status_loop E repo_name status jobs1 t s with
    | (Return t', s') => BuildApi.find_all_jobs_by_status_loop E repo_name status jobs2 t' s'
    | (Raise e, s') => (Raise e, s')
    end.
Proof.
  revert t s. induction jobs1 as [ | job jobs1 IH]; intros t s;
    cbn [BuildApi.find_all_jobs_by_status_loop app]; [reflexivity | ].
  unfold bind.
  destruct (BuildApi.find_all_jobs_by_status_step E repo_name status t job s)
    as [[t' | e] s']; [apply IH | reflexivity].
Qed.

(** What [query_job_data] can raise: its own two exceptions, neither of
    them a [BuildjsonError], or whatever the fetch raised. *)
Lemma query_job_data_raises (E : env) (complete_at request_id : Z) (s s' : state)
    (e : exn) :
  Buildjson.query_job_data E complete_at request_id s = (Raise e, s') ->
  e = UnboundLocalError "filename"
  \/ e = Exception (BUILDS_DAY_FILE (utc_day complete_at)) request_id
  \/ exists f, archive E f = Raise e.
Proof.
  destruct (Z.ltb_spec (Buildjson.seconds_ago E complete_at) (4 * (60 * 60))) as [Hlt | Hge].
  { rewrite query_job_data_rolling_window by exact Hlt.
    destruct (archive E BUILDS_4HR_FILE) as [jobs | e'] eqn:Ha.
    - destruct (Buildjson._find_job _ _ _); intros [= <- _]. by left.
    - intros [= <- _]. right; right. by eexists. }
  destruct (Z.eqb_spec (utc_day (now E)) (utc_day complete_at)) as [Heq | Hne].
  { rewrite query_job_data_current_day by assumption.
    destruct (archive E _) as [jobs | e'] eqn:Ha.
    - destruct (Buildjson._find_job _ _ _); intros [= <- _]. right; by left.
    - intros [= <- _]. right; right. by eexists. }
  destruct (BUILDS_DAY_INDEX s !! utc_day complete_at) as [jobs | ] eqn:Hidx.
  { rewrite (query_job_data_other_day_hit E complete_at request_id s jobs) by assumption.
    destruct (Buildjson._find_job _ _ _); intros [= <- _]. right; by left. }
  rewrite query_job_data_other_day_miss by assumption.
  destruct (archive E _) as [jobs | e'] eqn:Ha.
  - destruct (Buildjson._find_job _ _ _); intros [= <- _]. right; by left.
  - intros [= <- _]. right; right. by eexists.
Qed.

(** C2 does not hold of the code.  [find_all_jobs_by_status] catches
    [BuildjsonError] only.  When the archival lookup for a job reported as
    [SUCCESS] raises anything else, and a lookup that finds no job raises
    the plain [Exception], the exception leaves the loop: the call raises,
    returns no list, and the jobs after that one are not looked at. *)
Theorem find_all_jobs_by_status_aborts (E : env) (repo_name revision : string)
    (status : Z) (s s1 s2 s3 : state) (before after : list job) (job : job)
    (req : request) (requests : list request) (t : BuildApi.tally) (e : exn) :
  BuildApi._get_all_jobs E repo_name revision s
    = (Return (before ++ job :: after)%list, s1) ->
  BuildApi.find_all_jobs_by_status_loop E repo_name status before BuildApi.empty_tally s1
    = (Return t, s2) ->
  job_status job = Some (Some SUCCESS) ->
  job_requests job = Some (req :: requests) ->
  Buildjson.query_job_data E (req_complete_at req) (req_request_id req) s2
    = (Raise e, s3) ->
  is_BuildjsonError e = false ->
  BuildApi.find_all_jobs_by_status E repo_name revision status s = (Raise e, s3).
Proof.
  intros Hall Hbefore Hstatus Hreq Hquery He.
  unfold BuildApi.find_all_jobs_by_status, bind. rewrite Hall.
  rewrite find_all_jobs_by_status_loop_app, Hbefore.
  cbn [BuildApi.find_all_jobs_by_status_loop]. unfold bind.
  rewrite (find_all_jobs_by_status_step_raises E repo_name status t job s2 s3 e);
    [reflexivity | | exact He].
  by rewrite (get_job_status_SUCCESS E job req requests s2 Hstatus Hreq), Hquery.
Qed.

Lemma find_all_jobs_by_status_aborts_witness :
  fst (BuildApi.find_all_jobs_by_status
         (sample_env [archived_build [70] "abc123def456789"]
            [successful_job "Linux try build" 1437900000;
             pending_job "Linux try test" 99])
         "try" "abc123def456" PENDING initial_state)
  = Raise (Exception (BUILDS_DAY_FILE 16642) 71).
Proof.
  erewrite (find_all_jobs_by_status_aborts
              (sample_env [archived_build [70] "abc123def456789"]
                 [successful_job "Linux try build" 1437900000;
                  pending_job "Linux try test" 99])
              "try" "abc123def456" PENDING initial_state _ _ _
              [] [pending_job "Linux try test" 99]
              (successful_job "Linux try build" 1437900000)
              (req_71 1437900000) [] _ (Exception (BUILDS_DAY_FILE 16642) 71)).
  - reflexivity.
  - reflexivity.
  - reflexivity.
  - reflexivity.
  - reflexivity.
  - reflexivity.
  - reflexivity.
Defined.

Lemma tally_of_empty (repo_name : string) (status : Z) :
  tally_of repo_name status [] BuildApi.empty_tally.
Proof.
  split; cbn [BuildApi.empty_tally BuildApi.wrong_status_buildernames
              BuildApi.right_status_buildernames BuildApi.request_id_by_buildername].
  - intros job st H. by apply elem_of_nil in H.
  - intros b H. by apply not_elem_of_empty in H.
  - intros job H. by apply elem_of_nil in H.
  - intros b H. by apply not_elem_of_empty in H.
  - intros b request_id H. by rewrite lookup_empty in H.
Qed.

(** An iteration that returns keeps the relation, for one more outcome. *)
Lemma tally_of_step (E : env) (repo_name : string) (status : Z)
    (seen : list (job * outcome Z)) (t t' : BuildApi.tally) (job : job)
    (s s' : state) :
  BuildApi.find_all_jobs_by_status_step E repo_name status t job s = (Return t', s') ->
  tally_of repo_name status seen t ->
  tally_of repo_name status
    (seen ++ [(job, fst (BuildApi.get_job_status E job s))]) t'.
Proof.
  rewrite find_all_jobs_by_status_step_eq.
  destruct (BuildApi.get_job_status E job s) as [[st | e] sa]; cbn [fst].
  - destruct (Z.eqb_spec st status) as [-> | Hne].
    + destruct (BuildApi.get_buildapi_request_id repo_name job) as [request_id | e] eqn:Hid;
        [ | discriminate].
      intros [= <- _] [Hwc Hws Hrc Hrh Hid_sound].
      split; cbn [BuildApi.wrong_status_buildernames BuildApi.right_status_buildernames
                  BuildApi.request_id_by_buildername].
      * intros job' st H Hst. apply elem_of_app in H as [H | H]; [by eapply Hwc | ].
        apply list_elem_of_singleton in H as [= -> <-]. contradiction.
      * intros b Hb. destruct (Hws b Hb) as (job' & st & H & Hst & Hname).
        exists job', st. split; [apply elem_of_app; by left | by split].
      * intros job' H. apply elem_of_app in H as [H | H].
        -- apply elem_of_union. left. by apply Hrc.
        -- apply list_elem_of_singleton in H as [= ->].
           apply elem_of_union. right. by apply elem_of_singleton.
      * intros b Hb. apply elem_of_union in Hb as [Hb | Hb].
        -- destruct (decide (job_buildername job = b)) as [<- | Hne].
           ++ rewrite lookup_insert_eq. by eexists.
           ++ rewrite lookup_insert_ne by exact Hne. by apply Hrh.
        -- apply elem_of_singleton in Hb as ->. rewrite lookup_insert_eq. by eexists.
      * intros b id. destruct (decide (job_buildername job = b)) as [<- | Hne].
        -- rewrite lookup_insert_eq. intros [= <-]. exists job.
           split; [apply elem_of_app; right; by apply list_elem_of_singleton | by split].
        -- rewrite lookup_insert_ne by exact Hne. intros H.
           destruct (Hid_sound b id H) as (job' & Hin & Hname & Hreq).
           exists job'. split; [apply elem_of_app; by left | by split].
    + intros [= <- _] [Hwc Hws Hrc Hrh Hid_sound].
      split; cbn [BuildApi.wrong_status_buildernames BuildApi.right_status_buildernames
                  BuildApi.request_id_by_buildername].
      * intros job' st' H Hst. apply elem_of_app in H as [H | H].
        -- apply elem_of_union. left. by eapply Hwc.
        -- apply list_elem_of_singleton in H as [= -> <-].
           apply elem_of_union. right. by apply elem_of_singleton.
      * intros b Hb. apply elem_of_union in Hb as [Hb | Hb].
        -- destruct (Hws b Hb) as (job' & st' & H & Hst & Hname).
           exists job', st'. split; [apply elem_of_app; by left | by split].
        -- apply elem_of_singleton in Hb as ->. exists job, st.
           split; [apply elem_of_app; right; by apply list_elem_of_singleton | by split].
      * intros job' H. apply elem_of_app in H as [H | H]; [by apply Hrc | ].
        apply list_elem_of_singleton in H as [= -> <-]. contradiction.
      * exact Hrh.
      * intros b id H. destruct (Hid_sound b id H) as (job' & Hin & Hname & Hreq).
        exists job'. split; [apply elem_of_app; by left | by split].
  - destruct (is_BuildjsonError e); [ | discriminate].
    intros [= <- _] [Hwc Hws Hrc Hrh Hid_sound].
    split.
    + intros job' st H Hst. apply elem_of_app in H as [H | H]; [by eapply Hwc | ].
      by apply list_elem_of_singleton in H.
    + intros b Hb. destruct (Hws b Hb) as (job' & st & H & Hst & Hname).
      exists job', st. split; [apply elem_of_app; by left | by split].
    + intros job' H. apply elem_of_app in H as [H | H]; [by apply Hrc | ].
      by apply list_elem_of_singleton in H.
    + exact Hrh.
    + intros b id H. destruct (Hid_sound b id H) as (job' & Hin & Hname & Hreq).
      exists job'. split; [apply elem_of_app; by left | by split].
Qed.

(** A loop that returns relates its collections to the outcomes of the
    whole pass. *)
Lemma tally_of_loop (E : env) (repo_name : string) (status : Z)
    (all_jobs : list job) (seen : list (job * outcome Z)) (t t' : BuildApi.tally)
    (s s' : state) :
  BuildApi.find_all_jobs_by_status_loop E repo_name status all_jobs t s = (Return t', s') ->
  tally_of repo_name status seen t ->
  tally_of repo_name status (seen ++ statuses_seen E repo_name status all_jobs s) t'.
Proof.
  revert seen t s. induction all_jobs as [ | job all_jobs IH]; intros seen t s;
    cbn [BuildApi.find_all_jobs_by_status_loop statuses_seen].
  - intros [= <- _] Ht. by rewrite app_nil_r.
  - unfold bind.
    destruct (BuildApi.find_all_jobs_by_status_step E repo_name status t job s)
      as [[t1 | e] s1] eqn:Hstep; [ | discriminate].
    intros Hloop Ht.
    rewrite (find_all_jobs_by_status_step_state E repo_name status _ t job s), Hstep.
    cbn [snd]. rewrite (cons_middle _ seen), app_assoc.
    apply (IH _ t1 s1 Hloop). by apply (tally_of_step E _ _ _ t t1 job s s1).
Qed.

(** The list comprehension over the selected builder names does not raise
    when every name has an identifier, and collects exactly those. *)
Lemma request_ids_of_Return (ids : gmap string Z) (buildernames : list string) :
  (forall b, b ∈ buildernames -> is_Some (ids !! b)) ->
  exists l, BuildApi.request_ids_of ids buildernames = Return l
            /\ forall request_id,
                 request_id ∈ l <->
                 exists b, b ∈ buildernames /\ ids !! b = Some request_id.
Proof.
  induction buildernames as [ | b buildernames IH]; intros Hsome;
    cbn [BuildApi.request_ids_of].
  - exists []. split; [reflexivity | ].
    intros request_id. split.
    + intros H. by apply elem_of_nil in H.
    + intros (b & H & _). by apply elem_of_nil in H.
  - destruct (Hsome b (list_elem_of_here _ _)) as [request_id Hb]. rewrite Hb.
    destruct IH as (l & -> & Hl).
    { intros b' Hb'. apply Hsome. by apply list_elem_of_further. }
    exists (request_id :: l). split; [reflexivity | ].
    intros id. rewrite elem_of_cons, Hl. split.
    + intros [-> | (b' & Hb' & Hid)].
      * exists b. split; [apply list_elem_of_here | exact Hb].
      * exists b'. split; [by apply list_elem_of_further | exact Hid].
    + intros (b' & Hb' & Hid). apply elem_of_cons in Hb' as [-> | Hb'].
      * left. congruence.
      * right. by exists b'.
Qed.

Lemma sorted_Sorted (l : list Z) : Sorted Z.le (BuildApi.sorted l).
Proof. apply (Sorted_merge_sort Z.le). Qed.

Lemma elem_of_sorted (l : list Z) (x : Z) : x ∈ BuildApi.sorted l <-> x ∈ l.
Proof. unfold BuildApi.sorted. by rewrite merge_sort_Permutation. Qed.

(** C7.  When the loop over the jobs of the revision completes,
    [find_all_jobs_by_status] returns a list in ascending order.  Every
    identifier in it is the request id of a job that resolved to the target
    status and whose builder name has no job, in the whole pass, that
    resolved to another status: a builder name with an instance of another
    status contributes nothing, whatever its other instances.  Conversely a
    builder name with an instance of the target status and none of another
    status has the identifier of one of its jobs in the list. *)
Theorem find_all_jobs_by_status_result (E : env) (repo_name revision : string)
    (status : Z) (s s1 s2 : state) (all_jobs : list job) (t : BuildApi.tally) :
  BuildApi._get_all_jobs E repo_name revision s = (Return all_jobs, s1) ->
  BuildApi.find_all_jobs_by_status_loop E repo_name status all_jobs BuildApi.empty_tally s1
    = (Return t, s2) ->
  let seen := statuses_seen E repo_name status all_jobs s1 in
  exists out : list Z,
    BuildApi.find_all_jobs_by_status E repo_name revision status s = (Return out, s2)
    /\ Sorted Z.le out
    /\ (forall request_id, request_id ∈ out ->
          exists job,
            (job, Return status) ∈ seen
            /\ BuildApi.get_buildapi_request_id repo_name job = Return request_id
            /\ forall job' st,
                 (job', Return st) ∈ seen ->
                 job_buildername job' = job_buildername job ->
                 st = status)
    /\ (forall job,
          (job, Return status) ∈ seen ->
          (forall job' st,
             (job', Return st) ∈ seen ->
             job_buildername job' = job_buildername job ->
             st = status) ->
          exists job2 request_id,
            (job2, Return status) ∈ seen
            /\ job_buildername job2 = job_buildername job
            /\ BuildApi.get_buildapi_request_id repo_name job2 = Return request_id
            /\ request_id ∈ out).
Proof.
  intros Hall Hloop seen.
  pose proof (tally_of_loop E repo_name status all_jobs [] _ t s1 s2 Hloop
                (tally_of_empty repo_name status)) as Ht.
  rewrite app_nil_l in Ht. fold seen in Ht.
  destruct Ht as [Hwc Hws Hrc Hrh Hid_sound].
  set (buildernames :=
         BuildApi.right_status_buildernames t ∖ BuildApi.wrong_status_buildernames t).
  destruct (request_ids_of_Return (BuildApi.request_id_by_buildername t)
              (elements buildernames)) as (l & Hl & Hmem).
  { intros b Hb. apply elem_of_elements, elem_of_difference in Hb as [Hb _].
    by apply Hrh. }
  exists (BuildApi.sorted l). split; [ | split; [apply sorted_Sorted | split]].
  - unfold BuildApi.find_all_jobs_by_status. monad_unfold.
    rewrite Hall, Hloop. fold buildernames. by rewrite Hl.
  - intros request_id Hin.
    apply elem_of_sorted, Hmem in Hin as (b & Hb & Hid).
    apply elem_of_elements, elem_of_difference in Hb as [_ Hnot_wrong].
    destruct (Hid_sound b request_id Hid) as (job & Hseen & Hname & Hreq).
    exists job. split; [exact Hseen | split; [exact Hreq | ]].
    intros job' st Hseen' Hname'.
    destruct (decide (st = status)) as [-> | Hne]; [reflexivity | ].
    exfalso. apply Hnot_wrong. rewrite <- Hname, <- Hname'. by eapply Hwc.
  - intros job Hseen Hpure.
    assert (Hb : job_buildername job ∈ buildernames).
    { apply elem_of_difference. split; [by apply Hrc | ].
      intros Hwrong. destruct (Hws _ Hwrong) as (job' & st & Hseen' & Hne & Hname).
      apply Hne. by eapply Hpure. }
    destruct (Hrh (job_buildername job)) as [request_id Hid].
    { by apply elem_of_difference in Hb as [Hb _]. }
    destruct (Hid_sound _ _ Hid) as (job2 & Hseen2 & Hname2 & Hreq2).
    exists job2, request_id. repeat split; try assumption.
    apply elem_of_sorted, Hmem. exists (job_buildername job).
    split; [by apply elem_of_elements | exact Hid].
Qed.

Lemma find_all_jobs_by_status_result_witness :
  exists out : list Z,
    fst (BuildApi.find_all_jobs_by_status
           (sample_env []
              [job_with_status "Linux try build" FAILURE 10;
               job_with_status "Linux try build" WARNING 11;
               job_with_status "OS X try build" FAILURE 30;
               job_with_status "Win32 try build" FAILURE 20])
           "try" "abc123def456" FAILURE initial_state) = Return out
    /\ Sorted Z.le out.
Proof.
  destruct (find_all_jobs_by_status_result
              (sample_env []
                 [job_with_status "Linux try build" FAILURE 10;
                  job_with_status "Linux try build" WARNING 11;
                  job_with_status "OS X try build" FAILURE 30;
                  job_with_status "Win32 try build" FAILURE 20])
              "try" "abc123def456" FAILURE initial_state _ _ _ _ eq_refl eq_refl)
    as (out & Hout & Hsorted & _).
  exists out. split; [by rewrite Hout | exact Hsorted].
Defined.

(** The same pass, evaluated: the builder with a [FAILURE] and a [WARNING]
    instance is left out, the two others come out in ascending order. *)
Example find_all_jobs_by_status_sample :
  fst (BuildApi.find_all_jobs_by_status
         (sample_env []
            [job_with_status "Linux try build" FAILURE 10;
             job_with_status "Linux try build" WARNING 11;
             job_with_status "OS X try build" FAILURE 30;
             job_with_status "Win32 try build" FAILURE 20])
         "try" "abc123def456" FAILURE initial_state) = Return [20; 30].
Proof. vm_compute. reflexivity. Qed.

(** * Further properties of the archival resolver *)

(** X1.  [_find_job] returns the first job, in the order of the file, that
    lists the identifier, in its ["properties"] or at its root; the jobs
    before it list it in neither. *)
Theorem _find_job_first (request_id : Z) (jobs : list build) (loaded_from : file)
    (b : build) :
  Buildjson._find_job request_id jobs loaded_from = Some b ->
  exists before after : list build,
    jobs = (before ++ b :: after)%list
    /\ (request_id ∈ default [] (prop_request_ids (build_properties b))
        \/ request_id ∈ build_request_ids b)
    /\ forall b' : build, b' ∈ before ->
         (request_id ∉ default [] (prop_request_ids (build_properties b')))
         /\ (request_id ∉ build_request_ids b').
Proof.
  induction jobs as [ | job jobs IH]; cbn [Buildjson._find_job]; [discriminate | ].
  case_bool_decide as Hin; rewrite elem_of_elements, elem_of_list_to_set in Hin.
  - intros [= <-]. exists [], jobs. split; [reflexivity | split].
    + by apply elem_of_app in Hin.
    + intros b' Hb'. by apply elem_of_nil in Hb'.
  - intros H. destruct (IH H) as (before & after & -> & Hb & Hbefore).
    exists (job :: before), after. split; [reflexivity | split; [exact Hb | ]].
    intros b' Hb'. apply elem_of_cons in Hb' as [-> | Hb']; [ | by apply Hbefore].
    rewrite elem_of_app in Hin. tauto.
Qed.

Lemma _find_job_first_witness :
  exists before after : list build,
    [archived_build [70] "aaa"; archived_build [71; 72] "bbb"; archived_build [72] "ccc"]
      = (before ++ archived_build [71; 72] "bbb" :: after)%list
    /\ (72 ∈ default [] (prop_request_ids (build_properties (archived_build [71; 72] "bbb")))
        \/ 72 ∈ build_request_ids (archived_build [71; 72] "bbb"))
    /\ forall b' : build, b' ∈ before ->
         (72 ∉ default [] (prop_request_ids (build_properties b')))
         /\ (72 ∉ build_request_ids b').
Proof.
  apply (_find_job_first 72
           [archived_build [70] "aaa"; archived_build [71; 72] "bbb";
            archived_build [72] "ccc"] BUILDS_4HR_FILE).
  reflexivity.
Defined.

(** X2.  [_find_job] finds nothing exactly when no job of the list has the
    identifier in either of its two lists; a job without
    ["request_ids"] in its ["properties"] is searched by its root list
    alone. *)
Theorem _find_job_nothing (request_id : Z) (jobs : list build) (loaded_from : file) :
  Buildjson._find_job request_id jobs loaded_from = None <->
  forall b : build, b ∈ jobs ->
    (request_id ∉ default [] (prop_request_ids (build_properties b)))
    /\ (request_id ∉ build_request_ids b).
Proof.
  rewrite _find_job_None. unfold listed_request_ids.
  split; intros H b Hb; specialize (H b Hb); rewrite elem_of_app in *; tauto.
Qed.

Lemma _find_job_nothing_witness :
  Buildjson._find_job 71
    [ {| build_properties := {| prop_request_ids := None; prop_revision := "aaa" |};
         build_request_ids := [70] |} ] BUILDS_4HR_FILE = None.
Proof.
  apply (proj2 (_find_job_nothing 71 _ BUILDS_4HR_FILE)).
  intros b Hb. apply list_elem_of_singleton in Hb as ->. cbn.
  split; [apply not_elem_of_nil | ].
  intros H. apply list_elem_of_singleton in H. discriminate H.
Defined.

(** X3.  What [query_job_data] returns lists the identifier asked for, and is a
    job of the partition the call searched: the one the archive returned
    for the selected file, or the one in memory for the day. *)
Theorem query_job_data_sound (E : env) (complete_at request_id : Z) (s s' : state)
    (b : build) :
  Buildjson.query_job_data E complete_at request_id s = (Return b, s') ->
  (request_id ∈ default [] (prop_request_ids (build_properties b))
   \/ request_id ∈ build_request_ids b)
  /\ exists jobs : list build,
       b ∈ jobs
       /\ (archive E (selected_file E complete_at) = Return jobs
           \/ BUILDS_DAY_INDEX s !! utc_day complete_at = Some jobs).
Proof.
  assert (Hfound : forall jobs f,
            match Buildjson._find_job request_id jobs f with
            | Some job => Return job
            | None => Raise (Exception f request_id)
            end = Return b ->
            (request_id ∈ default [] (prop_request_ids (build_properties b))
             \/ request_id ∈ build_request_ids b) /\ b ∈ jobs).
  { intros jobs f. destruct (Buildjson._find_job request_id jobs f) as [job | ] eqn:Hf;
      [ | discriminate].
    intros [= ->]. apply _find_job_Some in Hf as [Hin Hlisted].
    unfold listed_request_ids in Hlisted. by rewrite elem_of_app in Hlisted. }
  unfold selected_file.
  destruct (Z.ltb_spec (Buildjson.seconds_ago E complete_at) (4 * (60 * 60))) as [Hlt | Hge].
  { rewrite query_job_data_rolling_window by exact Hlt.
    destruct (archive E BUILDS_4HR_FILE) as [jobs | e]; [ | discriminate].
    destruct (Buildjson._find_job request_id jobs BUILDS_4HR_FILE) as [job | ] eqn:Hf;
      [ | discriminate].
    intros [= -> _]. apply _find_job_Some in Hf as [Hin Hlisted].
    unfold listed_request_ids in Hlisted. rewrite elem_of_app in Hlisted.
    split; [exact Hlisted | exists jobs; auto]. }
  destruct (Z.eqb_spec (utc_day (now E)) (utc_day complete_at)) as [Heq | Hne].
  { rewrite query_job_data_current_day by assumption.
    destruct (archive E _) as [jobs | e]; [ | discriminate].
    intros [= H _]. destruct (Hfound _ _ H). split; [done | exists jobs; auto]. }
  destruct (BUILDS_DAY_INDEX s !! utc_day complete_at) as [jobs | ] eqn:Hidx.
  { rewrite (query_job_data_other_day_hit E complete_at request_id s jobs) by assumption.
    intros [= H _]. destruct (Hfound _ _ H). split; [done | exists jobs; auto]. }
  rewrite query_job_data_other_day_miss by assumption.
  destruct (archive E _) as [jobs | e]; [ | discriminate].
  intros [= H _]. destruct (Hfound _ _ H). split; [done | exists jobs; auto].
Qed.

Lemma query_job_data_sound_witness :
  71 ∈ default [] (prop_request_ids (build_properties (archived_build [71] "abc123def456789")))
  \/ 71 ∈ build_request_ids (archived_build [71] "abc123def456789").
Proof.
  exact (proj1 (query_job_data_sound
                  (sample_env [archived_build [71] "abc123def456789"] [])
                  1437996400 71 initial_state
                  (record_fetch BUILDS_4HR_FILE true initial_state)
                  (archived_build [71] "abc123def456789") eq_refl)).
Defined.

(** X4.  A call of [query_job_data] reads one partition, chosen by the
    completion time and the clock alone.  It makes at most one fetch, of the
    selected file, and touches neither [JOBS_CACHE] nor the log.  For a job
    completed less than four hours ago it always fetches the rolling window
    and keeps nothing of it in memory. *)
Theorem query_job_data_one_partition (E : env) (complete_at request_id : Z) (s : state) :
  let s' := snd (Buildjson.query_job_data E complete_at request_id s) in
  let f := selected_file E complete_at in
  JOBS_CACHE s' = JOBS_CACHE s
  /\ LOG_info s' = LOG_info s
  /\ (fetched s' = fetched s
      \/ fetched s' = (f, is_Return (archive E f)) :: fetched s)
  /\ (Buildjson.seconds_ago E complete_at < 4 * (60 * 60) ->
      f = BUILDS_4HR_FILE
      /\ fetched s' = (BUILDS_4HR_FILE, is_Return (archive E BUILDS_4HR_FILE)) :: fetched s
      /\ BUILDS_DAY_INDEX s' = BUILDS_DAY_INDEX s).
Proof.
  cbn zeta. rewrite query_job_data_state. cbn zeta. unfold selected_file.
  destruct (Z.ltb_spec (Buildjson.seconds_ago E complete_at) (4 * (60 * 60))) as [Hlt | Hge].
  { cbn [record_fetch JOBS_CACHE LOG_info fetched BUILDS_DAY_INDEX]. auto 10. }
  repeat split; try lia;
    destruct (utc_day (now E) =? utc_day complete_at);
    try destruct (BUILDS_DAY_INDEX s !! utc_day complete_at);
    try destruct (archive E (BUILDS_DAY_FILE (utc_day complete_at)));
    cbn [record_fetch set_BUILDS_DAY_INDEX JOBS_CACHE LOG_info fetched is_Return];
    auto.
Qed.

Lemma query_job_data_one_partition_witness :
  selected_file (sample_env [] []) 1437996400 = BUILDS_4HR_FILE
  /\ fetched (snd (Buildjson.query_job_data (sample_env [] []) 1437996400 71 initial_state))
     = (BUILDS_4HR_FILE, is_Return (archive (sample_env [] []) BUILDS_4HR_FILE))
       :: fetched initial_state
  /\ BUILDS_DAY_INDEX
       (snd (Buildjson.query_job_data (sample_env [] []) 1437996400 71 initial_state))
     = BUILDS_DAY_INDEX initial_state.
Proof.
  apply (proj2 (proj2 (proj2
           (query_job_data_one_partition (sample_env [] []) 1437996400 71 initial_state)))).
  reflexivity.
Defined.

(** X5.  When the fetch of the selected file raises, and the call needs that
    fetch (the day is not already in memory as a past day), the call raises
    the same exception; [BUILDS_DAY_INDEX] keeps no trace of the attempt. *)
Theorem query_job_data_fetch_failure (E : env) (complete_at request_id : Z) (s : state)
    (e : exn) :
  archive E (selected_file E complete_at) = Raise e ->
  Buildjson.seconds_ago E complete_at < 4 * (60 * 60)
  \/ utc_day (now E) = utc_day complete_at
  \/ BUILDS_DAY_INDEX s !! utc_day complete_at = None ->
  Buildjson.query_job_data E complete_at request_id s
  = (Raise e, record_fetch (selected_file E complete_at) false s).
Proof.
  unfold selected_file.
  destruct (Z.ltb_spec (Buildjson.seconds_ago E complete_at) (4 * (60 * 60))) as [Hlt | Hge].
  { intros Ha _. rewrite query_job_data_rolling_window by exact Hlt. by rewrite Ha. }
  intros Ha [Hlt | [Heq | Hidx]]; [lia | | ].
  - rewrite query_job_data_current_day by assumption. by rewrite Ha.
  - destruct (Z.eq_dec (utc_day (now E)) (utc_day complete_at)) as [Heq | Hne].
    + rewrite query_job_data_current_day by assumption. by rewrite Ha.
    + rewrite query_job_data_other_day_miss by assumption. by rewrite Ha.
Qed.

Lemma query_job_data_fetch_failure_witness :
  Buildjson.query_job_data (unreadable_env (IOError "timed out") []) 1437900000 71
    initial_state
  = (Raise (IOError "timed out"),
     record_fetch (selected_file (unreadable_env (IOError "timed out") []) 1437900000)
       false initial_state).
Proof.
  apply query_job_data_fetch_failure.
  - reflexivity.
  - right; right. reflexivity.
Defined.

(** X6.  Once the partition of a past day is in memory it is the one searched:
    a later call for a job of that day completed at least four hours
    before that call, in whatever world where the day is not the current
    one, answers from the builds the first fetch returned and fetches
    nothing, so a job the archive gained since then is not found. *)
Theorem cached_partition_is_searched (E1 E2 : env) (c1 r1 c2 r2 : Z) (s : state)
    (jobs1 : list build) :
  4 * (60 * 60) <= Buildjson.seconds_ago E1 c1 ->
  utc_day (now E1) <> utc_day c1 ->
  BUILDS_DAY_INDEX s !! utc_day c1 = None ->
  archive E1 (BUILDS_DAY_FILE (utc_day c1)) = Return jobs1 ->
  4 * (60 * 60) <= Buildjson.seconds_ago E2 c2 ->
  utc_day c2 = utc_day c1 ->
  utc_day (now E2) <> utc_day c2 ->
  let s1 := snd (Buildjson.query_job_data E1 c1 r1 s) in
  Buildjson.query_job_data E2 c2 r2 s1 =
    (match Buildjson._find_job r2 jobs1 (BUILDS_DAY_FILE (utc_day c2)) with
     | Some job => Return job
     | None => Raise (Exception (BUILDS_DAY_FILE (utc_day c2)) r2)
     end, s1).
Proof.
  intros Hold1 Hday1 Hmiss Harchive Hold2 Hsame Hday2 s1.
  apply query_job_data_other_day_hit; [exact Hold2 | exact Hday2 | ].
  subst s1. rewrite query_job_data_other_day_miss by assumption.
  rewrite Harchive, Hsame. cbn [snd set_BUILDS_DAY_INDEX BUILDS_DAY_INDEX].
  apply lookup_insert_eq.
Qed.

Lemma cached_partition_is_searched_witness :
  Buildjson.query_job_data
    (sample_env [archived_build [70] "aaa"; archived_build [71] "bbb"] [])
    1437900500 71
    (snd (Buildjson.query_job_data (sample_env [archived_build [70] "aaa"] [])
            1437900000 70 initial_state))
  = (Raise (Exception (BUILDS_DAY_FILE 16642) 71),
     snd (Buildjson.query_job_data (sample_env [archived_build [70] "aaa"] [])
            1437900000 70 initial_state)).
Proof.
  apply (cached_partition_is_searched
           (sample_env [archived_build [70] "aaa"] [])
           (sample_env [archived_build [70] "aaa"; archived_build [71] "bbb"] [])
           1437900000 70 1437900500 71 initial_state [archived_build [70] "aaa"]).
  - unfold Buildjson.seconds_ago. simpl. lia.
  - discriminate.
  - reflexivity.
  - reflexivity.
  - unfold Buildjson.seconds_ago. simpl. lia.
  - reflexivity.
  - discriminate.
Defined.

(** X7.  As long as the memory agrees with the archive, it is invisible: a call
    returns or raises what it would with an empty [BUILDS_DAY_INDEX], and
    leaves a memory that still agrees with the archive. *)
Theorem query_job_data_coherent (E : env) (complete_at request_id : Z) (s : state) :
  coherent E s ->
  fst (Buildjson.query_job_data E complete_at request_id s)
  = fst (Buildjson.query_job_data E complete_at request_id (set_BUILDS_DAY_INDEX ∅ s))
  /\ coherent E (snd (Buildjson.query_job_data E complete_at request_id s)).
Proof.
  intros Hco. split.
  - destruct (Z.ltb_spec (Buildjson.seconds_ago E complete_at) (4 * (60 * 60)))
      as [Hlt | Hge].
    { by rewrite !query_job_data_rolling_window. }
    destruct (Z.eq_dec (utc_day (now E)) (utc_day complete_at)) as [Heq | Hne].
    { by rewrite !query_job_data_current_day. }
    rewrite (query_job_data_other_day_miss E complete_at request_id
               (set_BUILDS_DAY_INDEX ∅ s)) by (assumption || apply lookup_empty).
    destruct (BUILDS_DAY_INDEX s !! utc_day complete_at) as [jobs | ] eqn:Hidx.
    + rewrite (query_job_data_other_day_hit E complete_at request_id s jobs)
        by assumption.
      by rewrite (Hco _ _ Hidx).
    + rewrite query_job_data_other_day_miss by assumption.
      by destruct (archive E _).
  - rewrite query_job_data_state. cbn zeta.
    repeat case_match; try exact Hco.
    intros date jobs. cbn [set_BUILDS_DAY_INDEX BUILDS_DAY_INDEX].
    destruct (decide (utc_day complete_at = date)) as [<- | Hd].
    + rewrite lookup_insert_eq. congruence.
    + rewrite lookup_insert_ne by exact Hd. apply Hco.
Qed.

Lemma query_job_data_coherent_witness :
  fst (Buildjson.query_job_data (sample_env [archived_build [71] "abc123def456789"] [])
         1437900000 71 (state_with_day 16642 [archived_build [71] "abc123def456789"]))
  = fst (Buildjson.query_job_data (sample_env [archived_build [71] "abc123def456789"] [])
           1437900000 71
           (set_BUILDS_DAY_INDEX ∅
              (state_with_day 16642 [archived_build [71] "abc123def456789"])))
  /\ coherent (sample_env [archived_build [71] "abc123def456789"] [])
       (snd (Buildjson.query_job_data
               (sample_env [archived_build [71] "abc123def456789"] [])
               1437900000 71
               (state_with_day 16642 [archived_build [71] "abc123def456789"]))).
Proof.
  apply query_job_data_coherent.
  intros date jobs H.
  unfold state_with_day in H. cbn [set_BUILDS_DAY_INDEX BUILDS_DAY_INDEX] in H.
  apply lookup_insert_Some in H as [[_ <-] | [_ H]].
  - reflexivity.
  - by rewrite lookup_empty in H.
Defined.

(** X8.  A lookup in a day file (a job completed at least four hours ago) that
    does not return raises either the plain [Exception] that names the
    day's file and the identifier, or the exception of the fetch; it never
    trips on the unassigned [filename]. *)
Theorem query_job_data_day_lookup_raises (E : env) (complete_at request_id : Z)
    (s s' : state) (e : exn) :
  4 * (60 * 60) <= Buildjson.seconds_ago E complete_at ->
  Buildjson.query_job_data E complete_at request_id s = (Raise e, s') ->
  e = Exception (BUILDS_DAY_FILE (utc_day complete_at)) request_id
  \/ archive E (BUILDS_DAY_FILE (utc_day complete_at)) = Raise e.
Proof.
  intros Hge.
  destruct (Z.eq_dec (utc_day (now E)) (utc_day complete_at)) as [Heq | Hne].
  { rewrite query_job_data_current_day by assumption.
    destruct (archive E _) as [jobs | e'] eqn:Ha.
    - destruct (Buildjson._find_job _ _ _); intros [= <- _]. by left.
    - intros [= <- _]. by right. }
  destruct (BUILDS_DAY_INDEX s !! utc_day complete_at) as [jobs | ] eqn:Hidx.
  { rewrite (query_job_data_other_day_hit E complete_at request_id s jobs) by assumption.
    destruct (Buildjson._find_job _ _ _); intros [= <- _]. by left. }
  rewrite query_job_data_other_day_miss by assumption.
  destruct (archive E _) as [jobs | e'] eqn:Ha.
  - destruct (Buildjson._find_job _ _ _); intros [= <- _]. by left.
  - intros [= <- _]. by right.
Qed.

Lemma query_job_data_day_lookup_raises_witness :
  Exception (BUILDS_DAY_FILE 16642) 71
    = Exception (BUILDS_DAY_FILE (utc_day 1437900000)) 71
  \/ archive (sample_env [archived_build [70] "aaa"] [])
       (BUILDS_DAY_FILE (utc_day 1437900000))
     = Raise (Exception (BUILDS_DAY_FILE 16642) 71).
Proof.
  eapply (query_job_data_day_lookup_raises
            (sample_env [archived_build [70] "aaa"] []) 1437900000 71 initial_state).
  - unfold Buildjson.seconds_ago. simpl. lia.
  - reflexivity.
Defined.

(** * Further properties of the polling backend *)

(** [_get_all_jobs], by what [JOBS_CACHE] holds for the scope. *)
Lemma _get_all_jobs_eq (E : env) (repo_name revision : string) (s : state) :
  BuildApi._get_all_jobs E repo_name revision s =
    match JOBS_CACHE s !! (repo_name, revision) with
    | Some jobs => (Return jobs, s)
    | None =>
        match query_jobs_schedule E repo_name revision with
        | Return jobs =>
            (Return jobs,
             set_JOBS_CACHE (<[(repo_name, revision) := jobs]> (JOBS_CACHE s)) s)
        | Raise e => (Raise e, s)
        end
    end.
Proof.
  unfold BuildApi._get_all_jobs. monad_unfold.
  destruct (JOBS_CACHE s !! (repo_name, revision)) as [jobs | ] eqn:Hc.
  - by rewrite Hc.
  - destruct (query_jobs_schedule E repo_name revision) as [jobs | e]; [ | reflexivity].
    cbn [set_JOBS_CACHE JOBS_CACHE]. by rewrite lookup_insert_eq.
Qed.

(** X9.  The job list of a scope is asked for once.  After a call that
    returned, every later call for the same repository and revision returns
    the same list, whatever self-serve would answer by then, and changes
    nothing. *)
Theorem _get_all_jobs_cached (E E' : env) (repo_name revision : string)
    (s s1 : state) (jobs : list job) :
  BuildApi._get_all_jobs E repo_name revision s = (Return jobs, s1) ->
  BuildApi._get_all_jobs E' repo_name revision s1 = (Return jobs, s1).
Proof.
  rewrite !_get_all_jobs_eq.
  destruct (JOBS_CACHE s !! (repo_name, revision)) as [jobs0 | ] eqn:Hc.
  - intros [= <- <-]. by rewrite Hc.
  - destruct (query_jobs_schedule E repo_name revision) as [jobs0 | e]; [ | discriminate].
    intros [= <- <-]. cbn [set_JOBS_CACHE JOBS_CACHE]. by rewrite lookup_insert_eq.
Qed.

Lemma _get_all_jobs_cached_witness :
  BuildApi._get_all_jobs (sample_env [] []) "try" "abc123def456"
    (snd (BuildApi._get_all_jobs (sample_env [] [pending_job "Linux try build" 99])
            "try" "abc123def456" initial_state))
  = (Return [pending_job "Linux try build" 99],
     snd (BuildApi._get_all_jobs (sample_env [] [pending_job "Linux try build" 99])
            "try" "abc123def456" initial_state)).
Proof.
  apply (_get_all_jobs_cached (sample_env [] [pending_job "Linux try build" 99])
           (sample_env [] []) "try" "abc123def456" initial_state).
  reflexivity.
Defined.

(** X10.  [_get_all_jobs] raises only what self-serve raises, and then stores
    nothing, so the next call asks again; in every case the lists of the
    other scopes, the day partitions, the fetch history and the log stay as
    they are. *)
Theorem _get_all_jobs_frame (E : env) (repo_name revision : string) (s s' : state)
    (r : outcome (list job)) :
  BuildApi._get_all_jobs E repo_name revision s = (r, s') ->
  BUILDS_DAY_INDEX s' = BUILDS_DAY_INDEX s
  /\ fetched s' = fetched s
  /\ LOG_info s' = LOG_info s
  /\ (forall scope, scope <> (repo_name, revision) ->
        JOBS_CACHE s' !! scope = JOBS_CACHE s !! scope)
  /\ (forall e, r = Raise e ->
        s' = s
        /\ JOBS_CACHE s !! (repo_name, revision) = None
        /\ query_jobs_schedule E repo_name revision = Raise e).
Proof.
  rewrite _get_all_jobs_eq.
  destruct (JOBS_CACHE s !! (repo_name, revision)) as [jobs0 | ] eqn:Hc.
  - intros [= <- <-]. repeat split; try done.
  - destruct (query_jobs_schedule E repo_name revision) as [jobs0 | e0];
      intros [= <- <-]; cbn [set_JOBS_CACHE BUILDS_DAY_INDEX fetched LOG_info JOBS_CACHE].
    + repeat split; try done.
      intros scope Hne. by rewrite lookup_insert_ne.
    + repeat split; try done; by intros e [= ->].
Qed.

Lemma _get_all_jobs_frame_witness :
  initial_state = initial_state
  /\ JOBS_CACHE initial_state !! ("try", "abc123def456") = None
  /\ query_jobs_schedule
       {| now := 1438000000; archive := fun _ => Return [];
          query_jobs_schedule := fun _ _ => Raise (IOError "no answer") |}
       "try" "abc123def456" = Raise (IOError "no answer").
Proof.
  exact (proj2 (proj2 (proj2 (proj2
           (_get_all_jobs_frame
              {| now := 1438000000; archive := fun _ => Return [];
                 query_jobs_schedule := fun _ _ => Raise (IOError "no answer") |}
              "try" "abc123def456" initial_state initial_state
              (Raise (IOError "no answer")) eq_refl))))
           (IOError "no answer") eq_refl).
Defined.

(** X11.  [get_matching_jobs] returns the jobs of the scope whose builder name is
    the one asked for, letter for letter: all of them, only them, and in the
    order of the scope's list. *)
Theorem get_matching_jobs_spec (E : env) (repo_name revision buildername : string)
    (s s' : state) (all_jobs : list job) :
  BuildApi._get_all_jobs E repo_name revision s = (Return all_jobs, s') ->
  exists l : list job,
    BuildApi.get_matching_jobs E repo_name revision buildername s = (Return l, s')
    /\ sublist l all_jobs
    /\ forall j : job, j ∈ l <-> (j ∈ all_jobs /\ job_buildername j = buildername).
Proof.
  intros Hall. unfold BuildApi.get_matching_jobs. monad_unfold. rewrite Hall.
  eexists. split; [reflexivity | ].
  clear Hall. split.
  - induction all_jobs as [ | j all_jobs IH]; cbn [List.filter]; [constructor | ].
    destruct (String.eqb _ _); by constructor.
  - intros j. rewrite !list_elem_of_In, List.filter_In, String.eqb_eq. reflexivity.
Qed.

Lemma get_matching_jobs_spec_witness :
  exists l : list job,
    BuildApi.get_matching_jobs
      (sample_env [] [pending_job "Linux try build" 98; pending_job "linux try build" 99])
      "try" "abc123def456" "linux try build" initial_state
    = (Return l,
       snd (BuildApi._get_all_jobs
              (sample_env [] [pending_job "Linux try build" 98;
                              pending_job "linux try build" 99])
              "try" "abc123def456" initial_state))
    /\ sublist l [pending_job "Linux try build" 98; pending_job "linux try build" 99]
    /\ forall j : job,
         j ∈ l <->
         (j ∈ [pending_job "Linux try build" 98; pending_job "linux try build" 99]
          /\ job_buildername j = "linux try build").
Proof.
  apply (get_matching_jobs_spec
           (sample_env [] [pending_job "Linux try build" 98; pending_job "linux try build" 99])
           "try" "abc123def456" "linux try build" initial_state).
  reflexivity.
Defined.

(** X12.  What a returned status tells about the raw record.  [PENDING] comes
    from a missing status; [RUNNING] and [UNKNOWN] from a status that is
    [None], by the end time; the five codes passed through come from
    themselves; [SUCCESS] and [COALESCED] from the code of [SUCCESS].
    Nothing else is ever returned; in particular a job with a status code is
    never reported [RUNNING]. *)
Theorem get_job_status_inversion (E : env) (job : job) (s : state) (v : Z) :
  fst (BuildApi.get_job_status E job s) = Return v ->
  (job_status job = None /\ v = PENDING)
  \/ (job_status job = Some None /\ job_endtime job = None /\ v = RUNNING)
  \/ (job_status job = Some None /\ job_endtime job <> None /\ v = UNKNOWN)
  \/ (job_status job = Some (Some v)
      /\ v ∈ [WARNING; FAILURE; EXCEPTION; RETRY; CANCELLED])
  \/ (job_status job = Some (Some SUCCESS) /\ (v = SUCCESS \/ v = COALESCED)).
Proof.
  unfold BuildApi.get_job_status.
  destruct (job_status job) as [[status | ] | ] eqn:Hstatus.
  - case_bool_decide as Hin.
    + intros [= ->]. right; right; right; left. by split.
    + destruct (Z.eqb_spec status SUCCESS) as [-> | Hne]; [ | discriminate].
      intros H. apply _is_coalesced_values in H.
      right; right; right; right. split; [reflexivity | tauto].
  - destruct (job_endtime job) as [endtime | ] eqn:Hend; intros [= <-].
    + right; right; left. by repeat split.
    + right; left. by repeat split.
  - intros [= <-]. left. by split.
Qed.

Lemma get_job_status_inversion_witness :
  (job_status (job_with_status "Linux try build" RETRY 99) = None /\ RETRY = PENDING)
  \/ (job_status (job_with_status "Linux try build" RETRY 99) = Some None
      /\ job_endtime (job_with_status "Linux try build" RETRY 99) = None /\ RETRY = RUNNING)
  \/ (job_status (job_with_status "Linux try build" RETRY 99) = Some None
      /\ job_endtime (job_with_status "Linux try build" RETRY 99) <> None
      /\ RETRY = UNKNOWN)
  \/ (job_status (job_with_status "Linux try build" RETRY 99) = Some (Some RETRY)
      /\ RETRY ∈ [WARNING; FAILURE; EXCEPTION; RETRY; CANCELLED])
  \/ (job_status (job_with_status "Linux try build" RETRY 99) = Some (Some SUCCESS)
      /\ (RETRY = SUCCESS \/ RETRY = COALESCED)).
Proof.
  apply (get_job_status_inversion (sample_env [] [])
           (job_with_status "Linux try build" RETRY 99) initial_state RETRY).
  reflexivity.
Defined.

(** X13.  Only a job reported as [SUCCESS] makes [get_job_status] look beyond
    the record.  For every other job the call leaves the state as it is and
    its outcome is the same in every world and state: no file is fetched. *)
Theorem get_job_status_offline (E E' : env) (job : job) (s s' : state) :
  job_status job <> Some (Some SUCCESS) ->
  snd (BuildApi.get_job_status E job s) = s
  /\ fst (BuildApi.get_job_status E job s) = fst (BuildApi.get_job_status E' job s').
Proof.
  intros Hne. unfold BuildApi.get_job_status.
  destruct (job_status job) as [[status | ] | ].
  - case_bool_decide; [by split | ].
    destruct (Z.eqb_spec status SUCCESS) as [-> | _]; [contradiction | by split].
  - destruct (job_endtime job); by split.
  - by split.
Qed.

Lemma get_job_status_offline_witness :
  snd (BuildApi.get_job_status (unreadable_env (IOError "timed out") [])
         (job_with_status "Linux try build" FAILURE 99) initial_state) = initial_state
  /\ fst (BuildApi.get_job_status (unreadable_env (IOError "timed out") [])
            (job_with_status "Linux try build" FAILURE 99) initial_state)
     = fst (BuildApi.get_job_status (sample_env [] [])
              (job_with_status "Linux try build" FAILURE 99)
              (record_fetch BUILDS_4HR_FILE true initial_state)).
Proof.
  apply get_job_status_offline. discriminate.
Defined.

(** X14.  The five codes [WARNING], [FAILURE], [EXCEPTION], [RETRY] and
    [CANCELLED] are returned as they are.  Every other code except that of
    [SUCCESS], below zero, [SKIPPED] or above six, makes [get_job_status]
    raise [BuildapiError].  Neither case changes the state. *)
Theorem get_job_status_by_code (E : env) (job : job) (s : state) (status : Z) :
  job_status job = Some (Some status) ->
  (1 <= status <= 6 -> status <> SKIPPED ->
   BuildApi.get_job_status E job s = (Return status, s))
  /\ (status < 0 \/ status = SKIPPED \/ 6 < status ->
      BuildApi.get_job_status E job s = (Raise (BuildapiError "Unexpected status"), s)).
Proof.
  intros Hstatus. unfold BuildApi.get_job_status. rewrite Hstatus.
  unfold WARNING, FAILURE, EXCEPTION, RETRY, CANCELLED, SKIPPED, SUCCESS.
  split.
  - intros Hrange Hne. rewrite bool_decide_eq_true_2; [reflexivity | ].
    rewrite !elem_of_cons, elem_of_nil. lia.
  - intros Hout. rewrite bool_decide_eq_false_2.
    + destruct (Z.eqb_spec status 0) as [-> | _]; [lia | reflexivity].
    + rewrite !elem_of_cons, elem_of_nil. lia.
Qed.

Lemma get_job_status_by_code_witness :
  BuildApi.get_job_status (sample_env [] []) (job_with_status "Linux try build" 7 99)
    initial_state = (Raise (BuildapiError "Unexpected status"), initial_state).
Proof.
  apply (proj2 (get_job_status_by_code (sample_env [] [])
                  (job_with_status "Linux try build" 7 99) initial_state 7 eq_refl)).
  right; right. reflexivity.
Defined.

(** X15.  A job reported as [SUCCESS] needs its first nested request.  Without
    a ["requests"] key [get_job_status] raises [KeyError], with an empty
    list [IndexError], in both cases before anything is fetched. *)
Theorem get_job_status_SUCCESS_without_request (E : env) (job : job) (s : state) :
  job_status job = Some (Some SUCCESS) ->
  (job_requests job = None ->
   BuildApi.get_job_status E job s = (Raise (KeyError "requests"), s))
  /\ (job_requests job = Some [] ->
      BuildApi.get_job_status E job s = (Raise IndexError, s)).
Proof.
  intros Hstatus.
  unfold BuildApi.get_job_status, BuildApi._is_coalesced. rewrite Hstatus.
  rewrite bool_decide_eq_false_2 by (rewrite !not_elem_of_cons; repeat split;
    try discriminate; apply not_elem_of_nil).
  rewrite bool_decide_eq_true_2 by reflexivity.
  split; intros ->; reflexivity.
Qed.

Lemma get_job_status_SUCCESS_without_request_witness :
  BuildApi.get_job_status (sample_env [] []) (job_with_status "Linux try build" SUCCESS 99)
    initial_state = (Raise (KeyError "requests"), initial_state).
Proof.
  apply (proj1 (get_job_status_SUCCESS_without_request (sample_env [] [])
                  (job_with_status "Linux try build" SUCCESS 99) initial_state eq_refl)).
  reflexivity.
Defined.

(** X16.  [get_buildapi_request_id] returns an identifier exactly when the job
    has a non-empty ["requests"] list, or no ["requests"] key and a
    top-level ["request_id"].  An empty ["requests"] list raises
    [IndexError] even when the job has a top-level ["request_id"]; a job
    with neither key raises [KeyError]. *)
Theorem get_buildapi_request_id_defined (repo_name : string) (job : job) :
  ((exists request_id, BuildApi.get_buildapi_request_id repo_name job = Return request_id)
   <-> ((exists req requests, job_requests job = Some (req :: requests))
        \/ (job_requests job = None /\ job_request_id job <> None)))
  /\ (job_requests job = Some [] ->
      BuildApi.get_buildapi_request_id repo_name job = Raise IndexError)
  /\ (job_requests job = None -> job_request_id job = None ->
      BuildApi.get_buildapi_request_id repo_name job = Raise (KeyError "request_id")).
Proof.
  unfold BuildApi.get_buildapi_request_id.
  destruct (job_requests job) as [[ | req requests] | ];
    [ | | destruct (job_request_id job) as [request_id | ]];
    (split; [split | split; congruence]).
  - intros [? [=]].
  - intros [(? & ? & [=]) | [[=] _]].
  - eauto.
  - eauto.
  - eauto.
  - intros _. by eexists.
  - intros [? [=]].
  - intros [(? & ? & [=]) | [_ ?]]. congruence.
Qed.

Lemma get_buildapi_request_id_defined_witness :
  BuildApi.get_buildapi_request_id "try"
    {| job_buildername := "Linux try build"; job_status := Some (Some WARNING);
       job_endtime := None; job_requests := Some []; job_request_id := Some 99 |}
  = Raise IndexError.
Proof.
  apply (proj1 (proj2 (get_buildapi_request_id_defined _ _))). reflexivity.
Defined.

(** * Further properties of the status aggregator *)

(** X17.  A job whose status raises [BuildjsonError] is passed over: the loop
    records a notice that names its builder, keeps its three collections as
    they were, and goes on with the jobs that follow. *)
Theorem find_all_jobs_by_status_skips (E : env) (repo_name : string) (status : Z)
    (rest : list job) (job : job) (t : BuildApi.tally) (s s' : state) (msg : string) :
  BuildApi.get_job_status E job s = (Raise (BuildjsonError msg), s') ->
  BuildApi.find_all_jobs_by_status_loop E repo_name status (job :: rest) t s
  = BuildApi.find_all_jobs_by_status_loop E repo_name status rest t
      (snd (LOG_info_add ("We were not able to find status information for "
                          ++ BuildApi.quote ++ job_buildername job ++ BuildApi.quote) s')).
Proof.
  intros Hst. cbn [BuildApi.find_all_jobs_by_status_loop]. unfold bind at 1.
  rewrite find_all_jobs_by_status_step_eq, Hst. reflexivity.
Qed.

Lemma find_all_jobs_by_status_skips_witness :
  BuildApi.find_all_jobs_by_status_loop (unreadable_env (BuildjsonError "no builds") [])
    "try" PENDING
    [successful_job "Linux try build" 1437900000; pending_job "Linux try test" 99]
    BuildApi.empty_tally initial_state
  = BuildApi.find_all_jobs_by_status_loop (unreadable_env (BuildjsonError "no builds") [])
      "try" PENDING [pending_job "Linux try test" 99] BuildApi.empty_tally
      (snd (LOG_info_add
              ("We were not able to find status information for "
               ++ BuildApi.quote ++ "Linux try build" ++ BuildApi.quote)
              (record_fetch (BUILDS_DAY_FILE 16642) false initial_state))).
Proof.
  apply (find_all_jobs_by_status_skips (unreadable_env (BuildjsonError "no builds") [])
           "try" PENDING [pending_job "Linux try test" 99]
           (successful_job "Linux try build" 1437900000) BuildApi.empty_tally initial_state
           (record_fetch (BUILDS_DAY_FILE 16642) false initial_state) "no builds").
  reflexivity.
Defined.

(** The pass of the previous lemma, from end to end: the job that could
    not be resolved is left out and the pending one is reported. *)
Example find_all_jobs_by_status_skips_sample :
  fst (BuildApi.find_all_jobs_by_status
         (unreadable_env (BuildjsonError "no builds")
            [successful_job "Linux try build" 1437900000;
             pending_job "Linux try test" 99])
         "try" "abc123def456" PENDING initial_state) = Return [99].
Proof. vm_compute. reflexivity. Qed.

(** X18.  Any other exception ends the whole call.  When the jobs before a job
    went through and that job's status raises something that is not a
    [BuildjsonError], or its status is the target and its identifier cannot
    be extracted, [find_all_jobs_by_status] raises that exception and
    returns no list. *)
Theorem find_all_jobs_by_status_raises (E : env) (repo_name revision : string)
    (status : Z) (s s1 s2 s3 : state) (before after : list job) (job : job)
    (t : BuildApi.tally) (e : exn) :
  BuildApi._get_all_jobs E repo_name revision s
    = (Return (before ++ job :: after)%list, s1) ->
  BuildApi.find_all_jobs_by_status_loop E repo_name status before BuildApi.empty_tally s1
    = (Return t, s2) ->
  (BuildApi.get_job_status E job s2 = (Raise e, s3) /\ is_BuildjsonError e = false)
  \/ (BuildApi.get_job_status E job s2 = (Return status, s3)
      /\ BuildApi.get_buildapi_request_id repo_name job = Raise e) ->
  BuildApi.find_all_jobs_by_status E repo_name revision status s = (Raise e, s3).
Proof.
  intros Hall Hbefore Hjob.
  unfold BuildApi.find_all_jobs_by_status, bind. rewrite Hall.
  rewrite find_all_jobs_by_status_loop_app, Hbefore.
  cbn [BuildApi.find_all_jobs_by_status_loop]. unfold bind.
  rewrite find_all_jobs_by_status_step_eq.
  destruct Hjob as [[-> He] | [-> Hid]].
  - by rewrite He.
  - by rewrite Z.eqb_refl, Hid.
Qed.

Lemma find_all_jobs_by_status_raises_witness :
  BuildApi.find_all_jobs_by_status
    (sample_env [] [pending_job "Linux try test" 98;
                    job_with_status "Linux try build" 7 99;
                    pending_job "OS X try test" 97])
    "try" "abc123def456" PENDING initial_state
  = (Raise (BuildapiError "Unexpected status"),
     snd (BuildApi._get_all_jobs
            (sample_env [] [pending_job "Linux try test" 98;
                            job_with_status "Linux try build" 7 99;
                            pending_job "OS X try test" 97])
            "try" "abc123def456" initial_state)).
Proof.
  eapply (find_all_jobs_by_status_raises
            (sample_env [] [pending_job "Linux try test" 98;
                            job_with_status "Linux try build" 7 99;
                            pending_job "OS X try test" 97])
            "try" "abc123def456" PENDING initial_state _ _ _
            [pending_job "Linux try test" 98] [pending_job "OS X try test" 97]
            (job_with_status "Linux try build" 7 99)).
  - reflexivity.
  - reflexivity.
  - left. split; reflexivity.
Defined.

Lemma statuses_seen_app (E : env) (repo_name : string) (status : Z)
    (jobs1 jobs2 : list job) (t t' : BuildApi.tally) (s s' : state) :
  BuildApi.find_all_jobs_by_status_loop E repo_name status jobs1 t s = (Return t', s') ->
  statuses_seen E repo_name status (jobs1 ++ jobs2) s
  = (statuses_seen E repo_name status jobs1 s
     ++ statuses_seen E repo_name status jobs2 s')%list.
Proof.
  revert t s. induction jobs1 as [ | j jobs1 IH]; intros t s;
    cbn [BuildApi.find_all_jobs_by_status_loop statuses_seen app].
  - by intros [= _ <-].
  - unfold bind.
    destruct (BuildApi.find_all_jobs_by_status_step E repo_name status t j s)
      as [[t1 | e] s1] eqn:Hstep; [ | discriminate].
    intros Hloop.
    rewrite (find_all_jobs_by_status_step_state E repo_name status _ t j s), Hstep.
    cbn [snd]. by rewrite (IH t1 s1 Hloop).
Qed.

(** The identifier recorded for a builder name stays until a later job of
    that name resolves to the target status. *)
Lemma find_all_jobs_by_status_loop_keeps_id (E : env) (repo_name : string) (status : Z)
    (jobs : list job) (t t' : BuildApi.tally) (s s' : state) (b : string)
    (request_id : Z) :
  BuildApi.find_all_jobs_by_status_loop E repo_name status jobs t s = (Return t', s') ->
  BuildApi.request_id_by_buildername t !! b = Some request_id ->
  (forall j, (j, Return status) ∈ statuses_seen E repo_name status jobs s ->
             job_buildername j <> b) ->
  BuildApi.request_id_by_buildername t' !! b = Some request_id.
Proof.
  revert t s. induction jobs as [ | j jobs IH]; intros t s;
    cbn [BuildApi.find_all_jobs_by_status_loop statuses_seen].
  - by intros [= <- _].
  - unfold bind.
    destruct (BuildApi.find_all_jobs_by_status_step E repo_name status t j s)
      as [[t1 | e] s1] eqn:Hstep; [ | discriminate].
    rewrite (find_all_jobs_by_status_step_state E repo_name status _ t j s), Hstep.
    cbn [snd]. intros Hloop Hid Hlater.
    apply (IH t1 s1 Hloop).
    + rewrite find_all_jobs_by_status_step_eq in Hstep.
      destruct (BuildApi.get_job_status E j s) as [[st | e] sa] eqn:Hst.
      * destruct (Z.eqb_spec st status) as [-> | Hne].
        -- destruct (BuildApi.get_buildapi_request_id repo_name j); [ | discriminate].
           injection Hstep as <- _. cbn [BuildApi.request_id_by_buildername].
           rewrite lookup_insert_ne; [exact Hid | ].
           apply Hlater. cbn [fst]. apply list_elem_of_here.
        -- by injection Hstep as <- _.
      * destruct (is_BuildjsonError e); [ | discriminate]. by injection Hstep as <- _.
    + intros j' Hj'. apply Hlater. by apply list_elem_of_further.
Qed.

Lemma request_ids_of_length (ids : gmap string Z) (buildernames : list string)
    (l : list Z) :
  BuildApi.request_ids_of ids buildernames = Return l ->
  length l = length buildernames.
Proof.
  revert l. induction buildernames as [ | b buildernames IH]; intros l;
    cbn [BuildApi.request_ids_of].
  - by intros [= <-].
  - destruct (ids !! b); [ | discriminate].
    destruct (BuildApi.request_ids_of ids buildernames) as [l' | e]; [ | discriminate].
    intros [= <-]. cbn [length]. by rewrite (IH l' eq_refl).
Qed.

(** What a returned list is made of: the loop completed, and the list
    holds the identifiers recorded for the names that are in the first set
    and not in the second, one for each name. *)
Lemma find_all_jobs_by_status_Return (E : env) (repo_name revision : string)
    (status : Z) (s s2 : state) (out : list Z) :
  BuildApi.find_all_jobs_by_status E repo_name revision status s = (Return out, s2) ->
  exists (all_jobs : list job) (s1 : state) (t : BuildApi.tally),
    BuildApi._get_all_jobs E repo_name revision s = (Return all_jobs, s1)
    /\ BuildApi.find_all_jobs_by_status_loop E repo_name status all_jobs
         BuildApi.empty_tally s1 = (Return t, s2)
    /\ length out
       = size (BuildApi.right_status_buildernames t ∖ BuildApi.wrong_status_buildernames t)
    /\ forall request_id,
         request_id ∈ out <->
         exists b, b ∈ BuildApi.right_status_buildernames t
                     ∖ BuildApi.wrong_status_buildernames t
                   /\ BuildApi.request_id_by_buildername t !! b = Some request_id.
Proof.
  unfold BuildApi.find_all_jobs_by_status. monad_unfold.
  destruct (BuildApi._get_all_jobs E repo_name revision s) as [[all_jobs | e] s1] eqn:Hall;
    [ | discriminate].
  destruct (BuildApi.find_all_jobs_by_status_loop E repo_name status all_jobs
              BuildApi.empty_tally s1) as [[t | e] s2'] eqn:Hloop; [ | discriminate].
  pose proof (tally_of_loop E repo_name status all_jobs [] _ t s1 s2' Hloop
                (tally_of_empty repo_name status)) as [_ _ _ Hrh _].
  destruct (request_ids_of_Return (BuildApi.request_id_by_buildername t)
              (elements (BuildApi.right_status_buildernames t
                           ∖ BuildApi.wrong_status_buildernames t)))
    as (l & Hl & Hmem).
  { intros b Hb. apply elem_of_elements, elem_of_difference in Hb as [Hb _].
    by apply Hrh. }
  rewrite Hl. intros [= <- <-].
  exists all_jobs, s1, t. split; [reflexivity | split; [exact Hloop | split]].
  - unfold BuildApi.sorted. rewrite merge_sort_Permutation.
    by rewrite (request_ids_of_length _ _ _ Hl).
  - intros request_id. rewrite elem_of_sorted, Hmem.
    by setoid_rewrite elem_of_elements.
Qed.

(** X19.  The last instance counts.  When a job resolves to the target status,
    no later job of its builder name does, and no job of that name resolves
    to another status, the list returned holds the identifier of that job:
    an earlier instance of the name with the target status is overwritten
    by it. *)
Theorem find_all_jobs_by_status_last_instance (E : env) (repo_name revision : string)
    (status : Z) (s s1 s2 s3 s4 : state) (before after : list job) (job : job)
    (t2 : BuildApi.tally) (request_id : Z) (out : list Z) :
  BuildApi._get_all_jobs E repo_name revision s
    = (Return (before ++ job :: after)%list, s1) ->
  BuildApi.find_all_jobs_by_status_loop E repo_name status before BuildApi.empty_tally s1
    = (Return t2, s2) ->
  BuildApi.get_job_status E job s2 = (Return status, s3) ->
  BuildApi.get_buildapi_request_id repo_name job = Return request_id ->
  (forall j, (j, Return status) ∈ statuses_seen E repo_name status after s3 ->
             job_buildername j <> job_buildername job) ->
  (forall j st,
     (j, Return st) ∈ statuses_seen E repo_name status (before ++ job :: after) s1 ->
     job_buildername j = job_buildername job -> st = status) ->
  BuildApi.find_all_jobs_by_status E repo_name revision status s = (Return out, s4) ->
  request_id ∈ out.
Proof.
  intros Hall Hbefore Hst Hid Hlater Hpure Hout.
  destruct (find_all_jobs_by_status_Return _ _ _ _ _ _ _ Hout)
    as (all_jobs & s1' & t & Hall' & Hloop & _ & Hmem).
  rewrite Hall in Hall'. injection Hall' as <- <-.
  pose proof (tally_of_loop E repo_name status _ [] _ t s1 s4 Hloop
                (tally_of_empty repo_name status)) as [_ Hws Hrc _ _].
  rewrite app_nil_l in Hws, Hrc.
  apply Hmem. exists (job_buildername job). split.
  - apply elem_of_difference. split.
    + apply Hrc. rewrite (statuses_seen_app _ _ _ _ _ _ _ _ _ Hbefore).
      apply elem_of_app. right. cbn [statuses_seen]. rewrite Hst.
      apply list_elem_of_here.
    + intros Hwrong. destruct (Hws _ Hwrong) as (j & st & Hseen & Hne & Hname).
      apply Hne. by apply (Hpure j st).
  - rewrite find_all_jobs_by_status_loop_app, Hbefore in Hloop.
    cbn [BuildApi.find_all_jobs_by_status_loop] in Hloop. unfold bind in Hloop.
    rewrite find_all_jobs_by_status_step_eq, Hst, Z.eqb_refl, Hid in Hloop.
    apply (find_all_jobs_by_status_loop_keeps_id _ _ _ _ _ _ _ _ _ _ Hloop);
      [apply lookup_insert_eq | exact Hlater].
Qed.

Lemma find_all_jobs_by_status_last_instance_witness :
  20 ∈ [20; 30].
Proof.
  refine (find_all_jobs_by_status_last_instance
            (sample_env []
               [job_with_status "Linux try build" FAILURE 10;
                job_with_status "OS X try build" FAILURE 30;
                job_with_status "Linux try build" FAILURE 20])
            "try" "abc123def456" FAILURE initial_state _ _ _ _
            [job_with_status "Linux try build" FAILURE 10;
             job_with_status "OS X try build" FAILURE 30] []
            (job_with_status "Linux try build" FAILURE 20) _ 20 [20; 30]
            eq_refl eq_refl eq_refl eq_refl _ _ _).
  - intros j Hj. by apply elem_of_nil in Hj.
  - intros j st Hj Hname.
    change (statuses_seen _ _ _ _ _)
      with [ (job_with_status "Linux try build" FAILURE 10, Return FAILURE);
             (job_with_status "OS X try build" FAILURE 30, Return FAILURE);
             (job_with_status "Linux try build" FAILURE 20, Return FAILURE) ] in Hj.
    rewrite !elem_of_cons, elem_of_nil in Hj.
    destruct Hj as [[= _ <-] | [[= _ <-] | [[= _ <-] | []]]]; reflexivity.
  - vm_compute. reflexivity.
Defined.

Lemma find_all_jobs_by_status_loop_right_size (E : env) (repo_name : string)
    (status : Z) (jobs : list job) (t t' : BuildApi.tally) (s s' : state) :
  BuildApi.find_all_jobs_by_status_loop E repo_name status jobs t s = (Return t', s') ->
  (size (BuildApi.right_status_buildernames t')
   <= size (BuildApi.right_status_buildernames t) + length jobs)%nat.
Proof.
  revert t s. induction jobs as [ | j jobs IH]; intros t s;
    cbn [BuildApi.find_all_jobs_by_status_loop length].
  - intros [= <- _]. lia.
  - unfold bind.
    destruct (BuildApi.find_all_jobs_by_status_step E repo_name status t j s)
      as [[t1 | e] s1] eqn:Hstep; [ | discriminate].
    intros Hloop. specialize (IH t1 s1 Hloop).
    enough (size (BuildApi.right_status_buildernames t1)
            <= S (size (BuildApi.right_status_buildernames t)))%nat by lia.
    rewrite find_all_jobs_by_status_step_eq in Hstep.
    destruct (BuildApi.get_job_status E j s) as [[st | e] sa].
    + destruct (st =? status).
      * destruct (BuildApi.get_buildapi_request_id repo_name j); [ | discriminate].
        injection Hstep as <- _. cbn [BuildApi.right_status_buildernames].
        rewrite size_union_alt.
        pose proof (subseteq_size ({[job_buildername j]} ∖ BuildApi.right_status_buildernames t)
                      {[job_buildername j]}) as Hle.
        rewrite size_singleton in Hle.
        assert (Hsub : ({[job_buildername j]} ∖ BuildApi.right_status_buildernames t
                        : gset string) ⊆ {[job_buildername j]})
          by (by apply subseteq_difference_l).
        specialize (Hle Hsub). lia.
      * injection Hstep as <- _. cbn [BuildApi.right_status_buildernames]. lia.
    + destruct (is_BuildjsonError e); [ | discriminate]. injection Hstep as <- _. lia.
Qed.

(** X20.  The list returned has at most one identifier for each job of the
    scope; a scope without jobs gives the empty list. *)
Theorem find_all_jobs_by_status_length (E : env) (repo_name revision : string)
    (status : Z) (s s1 : state) (all_jobs : list job) :
  BuildApi._get_all_jobs E repo_name revision s = (Return all_jobs, s1) ->
  (forall out s2,
     BuildApi.find_all_jobs_by_status E repo_name revision status s = (Return out, s2) ->
     (length out <= length all_jobs)%nat)
  /\ (all_jobs = [] ->
      BuildApi.find_all_jobs_by_status E repo_name revision status s = (Return [], s1)).
Proof.
  intros Hall. split.
  - intros out s2 Hout.
    destruct (find_all_jobs_by_status_Return _ _ _ _ _ _ _ Hout)
      as (all_jobs' & s1' & t & Hall' & Hloop & Hlen & _).
    rewrite Hall in Hall'. injection Hall' as <- <-.
    apply find_all_jobs_by_status_loop_right_size in Hloop.
    cbn [BuildApi.empty_tally BuildApi.right_status_buildernames] in Hloop.
    rewrite size_empty in Hloop. rewrite Hlen.
    etrans; [ | exact Hloop].
    apply subseteq_size. by apply subseteq_difference_l.
  - intros ->. unfold BuildApi.find_all_jobs_by_status. monad_unfold.
    rewrite Hall. reflexivity.
Qed.

Lemma find_all_jobs_by_status_length_witness :
  BuildApi.find_all_jobs_by_status (sample_env [] []) "try" "abc123def456" SUCCESS
    initial_state
  = (Return [],
     snd (BuildApi._get_all_jobs (sample_env [] []) "try" "abc123def456" initial_state)).
Proof.
  apply (proj2 (find_all_jobs_by_status_length (sample_env [] []) "try" "abc123def456"
                  SUCCESS initial_state _ [] eq_refl)).
  reflexivity.
Defined.

(** * Further properties of the results-set backend *)

(** X21.  The results-set backend returns ten of the eleven statuses: never
    [WARNING], and nothing outside the vocabulary. *)
Theorem treeherder_get_job_status_vocabulary (job : th_job) (v : Z) :
  TreeherderApi.get_job_status job = Return v ->
  v ∈ [COALESCED; PENDING; RUNNING; UNKNOWN; SUCCESS; FAILURE; SKIPPED;
       EXCEPTION; RETRY; CANCELLED]
  /\ v <> WARNING.
Proof.
  intros Hv.
  assert (Hin : v ∈ [COALESCED; PENDING; RUNNING; UNKNOWN; SUCCESS; FAILURE; SKIPPED;
                     EXCEPTION; RETRY; CANCELLED]).
  { unfold TreeherderApi.get_job_status in Hv.
    destruct (job_coalesced_to_guid job).
    { injection Hv as <-. set_solver. }
    destruct (String.eqb (th_result job) "unknown").
    { destruct (String.eqb (th_state job) "pending"); [injection Hv as <-; set_solver | ].
      destruct (String.eqb (th_state job) "running"); injection Hv as <-; set_solver. }
    destruct (String.eqb (th_state job) "completed"); [ | discriminate].
    destruct (TreeherderApi.getitem _ _) as [v' | ] eqn:Hget; [ | discriminate].
    injection Hv as ->. apply getitem_Some_elem_of in Hget.
    unfold TreeherderApi.status_dict in Hget.
    rewrite !elem_of_cons, elem_of_nil in Hget.
    destruct Hget as [H|[H|[H|[H|[H|[H|[H|[]]]]]]]]; injection H as _ ->; set_solver. }
  split; [exact Hin | ].
  intros ->. rewrite !elem_of_cons, elem_of_nil in Hin.
  unfold COALESCED, PENDING, RUNNING, UNKNOWN, SUCCESS, FAILURE, SKIPPED, EXCEPTION,
    RETRY, CANCELLED, WARNING in Hin. lia.
Qed.

Lemma treeherder_get_job_status_vocabulary_witness :
  (UNKNOWN ∈ [COALESCED; PENDING; RUNNING; UNKNOWN; SUCCESS; FAILURE; SKIPPED;
              EXCEPTION; RETRY; CANCELLED])
  /\ UNKNOWN <> WARNING.
Proof.
  apply (treeherder_get_job_status_vocabulary
           {| job_coalesced_to_guid := None; th_result := "unknown";
              th_state := "completed" |}).
  reflexivity.
Defined.

(** X22.  When the results-set backend raises, and what.  A job with a
    coalescing marker or with the result ["unknown"] never makes it raise.
    Otherwise a state other than ["completed"] raises [TreeherderError],
    and the state ["completed"] with a result that is no key of the table
    raises the [KeyError] of the lookup; these are its only exceptions. *)
Theorem treeherder_get_job_status_raises (job : th_job) (e : exn) :
  TreeherderApi.get_job_status job = Raise e <->
  job_coalesced_to_guid job = None
  /\ th_result job <> "unknown"
  /\ ((th_state job <> "completed" /\ e = TreeherderError "Unexpected status")
      \/ (th_state job = "completed"
          /\ (forall v, (th_result job, v) ∉ TreeherderApi.status_dict)
          /\ e = KeyError (th_result job))).
Proof.
  unfold TreeherderApi.get_job_status.
  destruct (job_coalesced_to_guid job) as [guid | ].
  { split; [discriminate | by intros [[=] _]]. }
  destruct (String.eqb_spec (th_result job) "unknown") as [Hres | Hres].
  { split.
    - destruct (String.eqb (th_state job) "pending"); [discriminate | ].
      destruct (String.eqb (th_state job) "running"); discriminate.
    - by intros (_ & Hne & _). }
  destruct (String.eqb_spec (th_state job) "completed") as [Hstate | Hstate].
  - destruct (TreeherderApi.getitem _ _) as [v | ] eqn:Hget.
    + split; [discriminate | ].
      intros (_ & _ & [[Hne _] | (_ & Hnot & _)]); [contradiction | ].
      exfalso. apply (Hnot v). by apply getitem_Some_elem_of.
    + split.
      * intros [= <-]. repeat split; try done. right. repeat split; try done.
        by apply getitem_None_not_elem_of.
      * intros (_ & _ & [[Hne _] | (_ & _ & ->)]); [contradiction | reflexivity].
  - split.
    + intros [= <-]. repeat split; try done. by left.
    + intros (_ & _ & [[_ ->] | (Heq & _)]); [reflexivity | contradiction].
Qed.

Lemma treeherder_get_job_status_raises_witness :
  TreeherderApi.get_job_status
    {| job_coalesced_to_guid := None; th_result := "success"; th_state := "running" |}
  = Raise (TreeherderError "Unexpected status").
Proof.
  apply (proj2 (treeherder_get_job_status_raises _ _)).
  split; [reflexivity | split; [discriminate | left; split; [discriminate | reflexivity]]].
Defined.

(** X23.  [get_matching_jobs] of the results-set backend.  Without a result set
    for the revision it returns no job.  Otherwise it asks for the jobs of
    the first result set only, at most 2000 of them and without filter, and
    returns those whose reference name is the builder name asked for: all
    of them, only them, in the order received. *)
Theorem treeherder_matching_jobs (client : treeherder_client)
    (repo_name revision buildername : string) (l : list th_record) :
  TreeherderQueries.get_matching_jobs client repo_name revision buildername = Return l ->
  (get_resultsets client repo_name revision [] = Return [] /\ l = [])
  \/ exists (result : resultset) (results : list resultset) (all_jobs : list th_record),
       get_resultsets client repo_name revision [] = Return (result :: results)
       /\ get_jobs client repo_name 2000 (resultset_id result) [] = Return all_jobs
       /\ sublist l all_jobs
       /\ forall j : th_record,
            j ∈ l <-> (j ∈ all_jobs /\ ref_data_name j = buildername).
Proof.
  unfold TreeherderQueries.get_matching_jobs, TreeherderQueries._get_all_jobs.
  destruct (get_resultsets client repo_name revision []) as [[ | result results] | e];
    [ | | discriminate].
  - intros [= <-]. by left.
  - destruct (get_jobs client repo_name 2000 (resultset_id result) [])
      as [all_jobs | e] eqn:Hjobs; [ | discriminate].
    intros [= <-]. right. exists result, results, all_jobs.
    split; [reflexivity | split; [exact Hjobs | clear Hjobs; split]].
    + induction all_jobs as [ | j all_jobs IH]; cbn [List.filter]; [constructor | ].
      destruct (String.eqb _ _); by constructor.
    + intros j. rewrite !list_elem_of_In, List.filter_In, String.eqb_eq. reflexivity.
Qed.

Lemma treeherder_matching_jobs_witness :
  (get_resultsets sample_client "try" "abc123def456" [] = Return []
   /\ [ {| th_id := 1; ref_data_name := "Linux try build";
           th_fields := {| job_coalesced_to_guid := None;
                           th_result := "success"; th_state := "completed" |} |};
        {| th_id := 3; ref_data_name := "Linux try build";
           th_fields := {| job_coalesced_to_guid := None;
                           th_result := "retry"; th_state := "completed" |} |} ] = [])
  \/ exists (result : resultset) (results : list resultset) (all_jobs : list th_record),
       get_resultsets sample_client "try" "abc123def456" [] = Return (result :: results)
       /\ get_jobs sample_client "try" 2000 (resultset_id result) [] = Return all_jobs
       /\ sublist
            [ {| th_id := 1; ref_data_name := "Linux try build";
                 th_fields := {| job_coalesced_to_guid := None;
                                 th_result := "success"; th_state := "completed" |} |};
              {| th_id := 3; ref_data_name := "Linux try build";
                 th_fields := {| job_coalesced_to_guid := None;
                                 th_result := "retry"; th_state := "completed" |} |} ]
            all_jobs
       /\ forall j : th_record,
            j ∈ [ {| th_id := 1; ref_data_name := "Linux try build";
                     th_fields := {| job_coalesced_to_guid := None;
                                     th_result := "success"; th_state := "completed" |} |};
                  {| th_id := 3; ref_data_name := "Linux try build";
                     th_fields := {| job_coalesced_to_guid := None;
                                     th_result := "retry"; th_state := "completed" |} |} ]
            <-> (j ∈ all_jobs /\ ref_data_name j = "Linux try build").
Proof.
  apply (treeherder_matching_jobs sample_client "try" "abc123def456"
           "Linux try build").
  reflexivity.
Defined.

(** * The graph of builders *)

Lemma buildbot_graph_builder_foldl (builders : list string)
    (graph : gmap string (option graph)) (b : string) :
  foldl (fun graph b => <[b := None]> graph) graph builders !! b
  = if decide (b ∈ builders) then Some None else graph !! b.
Proof.
  revert graph. induction builders as [ | x builders IH]; intros graph; cbn [foldl].
  - by rewrite decide_False by apply not_elem_of_nil.
  - rewrite IH. destruct (decide (b ∈ builders)) as [Hin | Hnot].
    + rewrite decide_True; [reflexivity | by apply list_elem_of_further].
    + destruct (decide (x = b)) as [-> | Hne].
      * rewrite lookup_insert_eq. by rewrite decide_True by apply list_elem_of_here.
      * rewrite lookup_insert_ne by exact Hne.
        rewrite decide_False; [reflexivity | ].
        rewrite elem_of_cons. intros [-> | ?]; contradiction.
Qed.

(** X24.  [buildbot_graph_builder] makes a graph of one level: its keys are the
    names of the list, each with no dependent.  A name listed twice is one
    key, and two lists with the same names, in whatever order, give the same
    graph. *)
Theorem buildbot_graph_builder_spec (builders : list string) :
  (forall b : string,
     buildbot_graph_builder builders !! b
     = if decide (b ∈ builders) then Some None else None)
  /\ (forall builders' : list string,
        (forall b : string, b ∈ builders <-> b ∈ builders') ->
        buildbot_graph_builder builders = buildbot_graph_builder builders').
Proof.
  assert (Hlookup : forall l b,
            buildbot_graph_builder l !! b = if decide (b ∈ l) then Some None else None).
  { intros l b. unfold buildbot_graph_builder.
    by rewrite buildbot_graph_builder_foldl, lookup_empty. }
  split; [apply Hlookup | ].
  intros builders' Hsame. apply map_eq. intros b. rewrite !Hlookup.
  destruct (decide (b ∈ builders)) as [Hin | Hnot].
  - by rewrite decide_True by by apply Hsame.
  - by rewrite decide_False by by rewrite <- Hsame.
Qed.

Lemma buildbot_graph_builder_spec_witness :
  buildbot_graph_builder ["Linux try build"; "OS X try build"; "Linux try build"]
  = buildbot_graph_builder ["OS X try build"; "Linux try build"].
Proof.
  apply (proj2 (buildbot_graph_builder_spec _)).
  intros b. rewrite !elem_of_cons, !elem_of_nil. tauto.
Defined.

(** * Repeating a pass in an unchanged world *)

Lemma coherent_same_index (E : env) (s s' : state) :
  BUILDS_DAY_INDEX s' = BUILDS_DAY_INDEX s -> coherent E s -> coherent E s'.
Proof. unfold coherent. intros ->. auto. Qed.

(** With a memory that agrees with the archive, the outcome of a lookup is
    the one of a lookup in the archive itself. *)
Lemma query_job_data_result_coherent (E : env) (complete_at request_id : Z)
    (s s0 : state) :
  coherent E s -> coherent E s0 ->
  fst (Buildjson.query_job_data E complete_at request_id s)
  = fst (Buildjson.query_job_data E complete_at request_id s0).
Proof.
  intros Hco Hco0.
  destruct (Z.ltb_spec (Buildjson.seconds_ago E complete_at) (4 * (60 * 60))) as [Hlt | Hge].
  { by rewrite !query_job_data_rolling_window. }
  destruct (Z.eq_dec (utc_day (now E)) (utc_day complete_at)) as [Heq | Hne].
  { by rewrite !query_job_data_current_day. }
  assert (Hany : forall s1, coherent E s1 ->
            fst (Buildjson.query_job_data E complete_at request_id s1)
            = match archive E (BUILDS_DAY_FILE (utc_day complete_at)) with
              | Return jobs =>
                  match Buildjson._find_job request_id jobs
                          (BUILDS_DAY_FILE (utc_day complete_at)) with
                  | Some job => Return job
                  | None => Raise (Exception (BUILDS_DAY_FILE (utc_day complete_at))
                                     request_id)
                  end
              | Raise e => Raise e
              end).
  { intros s1 Hco1.
    destruct (BUILDS_DAY_INDEX s1 !! utc_day complete_at) as [jobs | ] eqn:Hidx.
    - rewrite (query_job_data_other_day_hit E complete_at request_id s1 jobs)
        by assumption.
      by rewrite (Hco1 _ _ Hidx).
    - rewrite query_job_data_other_day_miss by assumption.
      by destruct (archive E _). }
  by rewrite !Hany.
Qed.

Lemma query_job_data_keeps_coherent (E : env) (complete_at request_id : Z) (s : state) :
  coherent E s ->
  coherent E (snd (Buildjson.query_job_data E complete_at request_id s)).
Proof.
  intros Hco. rewrite query_job_data_state. cbn zeta.
  repeat case_match; try exact Hco.
  intros date jobs. cbn [set_BUILDS_DAY_INDEX BUILDS_DAY_INDEX].
  destruct (decide (utc_day complete_at = date)) as [<- | Hd].
  - rewrite lookup_insert_eq. congruence.
  - rewrite lookup_insert_ne by exact Hd. apply Hco.
Qed.

Lemma query_job_data_keeps_JOBS_CACHE (E : env) (complete_at request_id : Z) (s : state) :
  JOBS_CACHE (snd (Buildjson.query_job_data E complete_at request_id s)) = JOBS_CACHE s.
Proof. rewrite query_job_data_state. cbn zeta. by repeat case_match. Qed.

(** [get_job_status], as a function of the outcome of the lookup. *)
Lemma get_job_status_eq (E : env) (job : job) (s : state) :
  BuildApi.get_job_status E job s =
    match job_status job with
    | None => (Return PENDING, s)
    | Some None =>
        (Return (match job_endtime job with None => RUNNING | Some _ => UNKNOWN end), s)
    | Some (Some status) =>
        if bool_decide (status ∈ [WARNING; FAILURE; EXCEPTION; RETRY; CANCELLED])
        then (Return status, s)
        else if status =? SUCCESS then
          match job_requests job with
          | None => (Raise (KeyError "requests"), s)
          | Some [] => (Raise IndexError, s)
          | Some (req :: _) =>
              let q := Buildjson.query_job_data E (req_complete_at req)
                         (req_request_id req) s in
              (match fst q with
               | Return status_data =>
                   Return (if String.eqb
                                (substring 0 12 (prop_revision (build_properties status_data)))
                                (substring 0 12 (req_revision req))
                           then SUCCESS else COALESCED)
               | Raise e => Raise e
               end, snd q)
          end
        else (Raise (BuildapiError "Unexpected status"), s)
    end.
Proof.
  unfold BuildApi.get_job_status.
  destruct (job_status job) as [[status | ] | ] eqn:Hstatus; [ | by destruct (job_endtime job) | reflexivity].
  case_bool_decide; [reflexivity | ].
  destruct (Z.eqb_spec status SUCCESS) as [-> | Hne]; [ | reflexivity].
  unfold BuildApi._is_coalesced. rewrite Hstatus.
  rewrite bool_decide_eq_true_2 by reflexivity.
  destruct (job_requests job) as [[ | req requests] | ]; try reflexivity.
  monad_unfold. cbn zeta.
  destruct (Buildjson.query_job_data E _ _ s) as [[status_data | e] s']; [ | reflexivity].
  cbn [BuildApi.truthy negb fst snd]. by destruct (String.eqb _ _).
Qed.

Lemma get_job_status_coherent (E : env) (job : job) (s s0 : state) :
  coherent E s -> coherent E s0 ->
  fst (BuildApi.get_job_status E job s) = fst (BuildApi.get_job_status E job s0)
  /\ coherent E (snd (BuildApi.get_job_status E job s))
  /\ JOBS_CACHE (snd (BuildApi.get_job_status E job s)) = JOBS_CACHE s.
Proof.
  intros Hco Hco0. rewrite !get_job_status_eq.
  destruct (job_status job) as [[status | ] | ]; try by repeat split.
  case_bool_decide; [by repeat split | ].
  destruct (status =? SUCCESS); [ | by repeat split].
  destruct (job_requests job) as [[ | req requests] | ]; try by repeat split.
  cbn zeta. cbn [fst snd].
  rewrite (query_job_data_result_coherent E _ _ s s0 Hco Hco0).
  split; [reflexivity | split].
  - by apply query_job_data_keeps_coherent.
  - apply query_job_data_keeps_JOBS_CACHE.
Qed.

Lemma find_all_jobs_by_status_step_coherent (E : env) (repo_name : string) (status : Z)
    (t : BuildApi.tally) (job : job) (s s0 : state) :
  coherent E s -> coherent E s0 ->
  fst (BuildApi.find_all_jobs_by_status_step E repo_name status t job s)
  = fst (BuildApi.find_all_jobs_by_status_step E repo_name status t job s0)
  /\ coherent E (snd (BuildApi.find_all_jobs_by_status_step E repo_name status t job s))
  /\ JOBS_CACHE (snd (BuildApi.find_all_jobs_by_status_step E repo_name status t job s))
     = JOBS_CACHE s.
Proof.
  intros Hco Hco0.
  destruct (get_job_status_coherent E job s s0 Hco Hco0) as (Hfst & Hco' & Hcache).
  rewrite !find_all_jobs_by_status_step_eq.
  destruct (BuildApi.get_job_status E job s) as [r sa].
  destruct (BuildApi.get_job_status E job s0) as [r0 sa0].
  cbn [fst snd] in Hfst, Hco', Hcache. subst r0.
  destruct r as [st | e].
  - destruct (st =? status); [ | by repeat split].
    destruct (BuildApi.get_buildapi_request_id repo_name job); by repeat split.
  - destruct (is_BuildjsonError e); [ | by repeat split].
    repeat split; [ | exact Hcache].
    by apply (coherent_same_index E sa).
Qed.

Lemma find_all_jobs_by_status_loop_coherent (E : env) (repo_name : string) (status : Z)
    (jobs : list job) (t : BuildApi.tally) (s s0 : state) :
  coherent E s -> coherent E s0 ->
  fst (BuildApi.find_all_jobs_by_status_loop E repo_name status jobs t s)
  = fst (BuildApi.find_all_jobs_by_status_loop E repo_name status jobs t s0)
  /\ coherent E (snd (BuildApi.find_all_jobs_by_status_loop E repo_name status jobs t s))
  /\ JOBS_CACHE (snd (BuildApi.find_all_jobs_by_status_loop E repo_name status jobs t s))
     = JOBS_CACHE s.
Proof.
  revert t s s0. induction jobs as [ | j jobs IH]; intros t s s0 Hco Hco0;
    cbn [BuildApi.find_all_jobs_by_status_loop].
  - by repeat split.
  - unfold bind.
    destruct (find_all_jobs_by_status_step_coherent E repo_name status t j s s0 Hco Hco0)
      as (Hfst & Hco' & Hcache).
    pose proof (find_all_jobs_by_status_step_coherent E repo_name status t j s0 s Hco0 Hco)
      as (_ & Hco0' & _).
    destruct (BuildApi.find_all_jobs_by_status_step E repo_name status t j s) as [r s1].
    destruct (BuildApi.find_all_jobs_by_status_step E repo_name status t j s0) as [r0 s01].
    cbn [fst snd] in Hfst, Hco', Hcache, Hco0'. subst r0.
    destruct r as [t1 | e]; [ | by repeat split].
    destruct (IH t1 s1 s01 Hco' Hco0') as (IHfst & IHco & IHcache).
    split; [exact IHfst | split; [exact IHco | congruence]].
Qed.

(** X25.  A pass can be repeated.  In a world that does not change, starting
    from a memory that agrees with the archive, asking again for the jobs
    of a scope with a status gives what the first call gave, the same list
    or the same exception: what the first call left in [JOBS_CACHE] and
    [BUILDS_DAY_INDEX] changes no answer. *)
Theorem find_all_jobs_by_status_repeatable (E : env) (repo_name revision : string)
    (status : Z) (s s1 : state) (all_jobs : list job) :
  coherent E s ->
  BuildApi._get_all_jobs E repo_name revision s = (Return all_jobs, s1) ->
  fst (BuildApi.find_all_jobs_by_status E repo_name revision status
         (snd (BuildApi.find_all_jobs_by_status E repo_name revision status s)))
  = fst (BuildApi.find_all_jobs_by_status E repo_name revision status s).
Proof.
  intros Hco Hall.
  assert (Hco1 : coherent E s1).
  { rewrite _get_all_jobs_eq in Hall.
    destruct (JOBS_CACHE s !! (repo_name, revision)); [by injection Hall as _ <- | ].
    destruct (query_jobs_schedule E repo_name revision); [ | discriminate].
    injection Hall as _ <-. by apply (coherent_same_index E s). }
  assert (Hcached : JOBS_CACHE s1 !! (repo_name, revision) = Some all_jobs).
  { rewrite _get_all_jobs_eq in Hall.
    destruct (JOBS_CACHE s !! (repo_name, revision)) eqn:Hc;
      [injection Hall as <- <-; exact Hc | ].
    destruct (query_jobs_schedule E repo_name revision); [ | discriminate].
    injection Hall as <- <-. cbn [set_JOBS_CACHE JOBS_CACHE]. apply lookup_insert_eq. }
  set (run := BuildApi.find_all_jobs_by_status_loop E repo_name status all_jobs
                BuildApi.empty_tally).
  assert (Hfirst : BuildApi.find_all_jobs_by_status E repo_name revision status s
                   = (match fst (run s1) with
                      | Return t =>
                          match BuildApi.request_ids_of (BuildApi.request_id_by_buildername t)
                                  (elements (BuildApi.right_status_buildernames t
                                             ∖ BuildApi.wrong_status_buildernames t)) with
                          | Return l => Return (BuildApi.sorted l)
                          | Raise e => Raise e
                          end
                      | Raise e => Raise e
                      end, snd (run s1))).
  { unfold BuildApi.find_all_jobs_by_status. monad_unfold. rewrite Hall. fold run.
    destruct (run s1) as [[t | e] s2]; [ | reflexivity].
    cbn [fst snd]. by destruct (BuildApi.request_ids_of _ _). }
  rewrite Hfirst. cbn [fst snd].
  destruct (find_all_jobs_by_status_loop_coherent E repo_name status all_jobs
              BuildApi.empty_tally s1 s1 Hco1 Hco1) as (_ & Hco2 & Hcache2).
  fold run in Hco2, Hcache2.
  assert (Hall2 : BuildApi._get_all_jobs E repo_name revision (snd (run s1))
                  = (Return all_jobs, snd (run s1))).
  { rewrite _get_all_jobs_eq, Hcache2. by rewrite Hcached. }
  unfold BuildApi.find_all_jobs_by_status at 1. monad_unfold. rewrite Hall2. fold run.
  destruct (find_all_jobs_by_status_loop_coherent E repo_name status all_jobs
              BuildApi.empty_tally (snd (run s1)) s1 Hco2 Hco1) as (Hfst & _ & _).
  fold run in Hfst.
  destruct (run (snd (run s1))) as [r2 s3]. cbn [fst] in Hfst. rewrite <- Hfst.
  destruct r2 as [t | e]; [ | reflexivity].
  by destruct (BuildApi.request_ids_of _ _).
Qed.

Lemma find_all_jobs_by_status_repeatable_witness :
  fst (BuildApi.find_all_jobs_by_status
         (sample_env [archived_build [71] "abc123def456789"]
            [successful_job "Linux try build" 1437900000;
             pending_job "Linux try test" 99])
         "try" "abc123def456" SUCCESS
         (snd (BuildApi.find_all_jobs_by_status
                 (sample_env [archived_build [71] "abc123def456789"]
                    [successful_job "Linux try build" 1437900000;
                     pending_job "Linux try test" 99])
                 "try" "abc123def456" SUCCESS initial_state)))
  = fst (BuildApi.find_all_jobs_by_status
           (sample_env [archived_build [71] "abc123def456789"]
              [successful_job "Linux try build" 1437900000;
               pending_job "Linux try test" 99])
           "try" "abc123def456" SUCCESS initial_state).
Proof.
  eapply (find_all_jobs_by_status_repeatable
            (sample_env [archived_build [71] "abc123def456789"]
               [successful_job "Linux try build" 1437900000;
                pending_job "Linux try test" 99])
            "try" "abc123def456" SUCCESS initial_state).
  - intros date jobs H. cbn in H. by rewrite lookup_empty in H.
  - reflexivity.
Defined.
